(** * PaySim fraud-monitoring demo: shallow embedding and verified properties

    The development follows the two programs of the repository that carry
    logic:

    - [server/mcp_server_paysim.py]: the resource reader, the KPI aggregator
      and the suspicious-match detector, all of them read-only queries over
      the [transactions] table;
    - [ui/app.py]: the explainable risk-scoring engine [build_insights],
      the helpers of the dashboard ([risk_badge], [suggest_detection_params],
      [risky_out_stats], [global_overview]) and the calls its pages make to
      the server.

    Conventions of the embedding.

    - Python [int] is [Z] (unbounded).
    - Real-valued quantities (Python [float], Postgres NUMERIC and float8)
      are modelled by the rational number they denote, in [Q].  Binary
      rounding, NaN and the infinities are outside the model; every
      comparison of the code is the corresponding decidable comparison of
      [Q].
    - A Python dict used as a record is a [Record]; a key that may be absent
      or hold [None] is an [option] field.
    - An exception is an [Raised] outcome; a normal return is [Returned].
    - The data store is the list of the rows of [transactions], in the
      enumeration order of the store; the connection to it is assumed to
      succeed.
    - A text sent to the store as the parameter of a query is taken to
      hold no NUL character: the driver refuses such a text with
      [ValueError] before the query runs.  A property whose point is that
      a call does not raise states this as a hypothesis. *)

From Stdlib Require Import ZArith QArith List String Ascii Bool Lia.
From Stdlib Require Import Qround Lqa Permutation Sorting.Sorted.
Import ListNotations.

Local Open Scope Z_scope.

(** ** Python values and builtins used by both programs *)

Module Py.

(** Exceptions the modelled code can raise. *)
Inductive exn : Type :=
| ValueError
| IndexError
| ZeroDivisionError
| DatabaseError.

(** Result of a call: a value, or an exception that propagates. *)
Inductive outcome (A : Type) : Type :=
| Returned (a : A)
| Raised (e : exn).

Arguments Returned {A} a.
Arguments Raised {A} e.

Definition bind {A B : Type} (m : outcome A) (k : A -> outcome B) : outcome B :=
  match m with
  | Returned a => k a
  | Raised e => Raised e
  end.

(** [x or d] for an integer that may be absent: [None] and [0] are falsy. *)
Definition int_or (x : option Z) (d : Z) : Z :=
  match x with
  | Some n => if n =? 0 then d else n
  | None => d
  end.

(** [x or d] for a real that may be absent: [None] and [0.0] are falsy. *)
Definition float_or (x : option Q) (d : Q) : Q :=
  match x with
  | Some q => if Qeq_bool q 0 then d else q
  | None => d
  end.

(** [x or d] for a string that may be absent: [None] and the empty string
    are falsy. *)
Definition str_or (x : option string) (d : string) : string :=
  match x with
  | Some EmptyString => d
  | Some s => s
  | None => d
  end.

(** [x or d] for a list that may be absent: [None] and [[]] are falsy. *)
Definition list_or {A : Type} (x : option (list A)) (d : list A) : list A :=
  match x with
  | Some [] => d
  | Some l => l
  | None => d
  end.

(** [f(x) if x is not None else d], for an argument already of the type
    [f] converts to. *)
Definition if_not_none {A : Type} (x : option A) (d : A) : A :=
  match x with
  | Some v => v
  | None => d
  end.

(** The value a call returned, seen through [f]. *)
Definition map {A B : Type} (f : A -> B) (m : outcome A) : outcome B :=
  match m with
  | Returned a => Returned (f a)
  | Raised e => Raised e
  end.

(** [bool(d.get(k, False))] for a boolean that may be absent. *)
Definition bool_of (x : option bool) : bool :=
  match x with
  | Some b => b
  | None => false
  end.

(** [len]. *)
Definition len {A : Type} (l : list A) : Z := Z.of_nat (List.length l).

(** [str.upper] on ASCII letters; other bytes are left as they are. *)
Definition upper_ascii (c : ascii) : ascii :=
  let n := nat_of_ascii c in
  if (Nat.leb 97 n && Nat.leb n 122)%bool then ascii_of_nat (n - 32) else c.

Fixpoint upper (s : string) : string :=
  match s with
  | EmptyString => EmptyString
  | String c r => String (upper_ascii c) (upper r)
  end.

(** [sep.join(parts)]. *)
Fixpoint join (sep : string) (parts : list string) : string :=
  match parts with
  | [] => EmptyString
  | [p] => p
  | p :: rest => (p ++ sep ++ join sep rest)%string
  end.

(** [a >= b], [a > b] and [a == b] on reals. *)
Definition ge (a b : Q) : bool := Qle_bool b a.
Definition gt (a b : Q) : bool := negb (Qle_bool a b).
Definition eq (a b : Q) : bool := Qeq_bool a b.

(** [max(a, b)] and [min(a, b)] on reals: the first argument is kept
    unless the second is strictly larger (for [min], strictly smaller). *)
Definition max2 (a b : Q) : Q := if gt b a then b else a.
Definition min2 (a b : Q) : Q := if gt a b then b else a.

(** [a / b] for two ints: the real quotient; division by zero raises. *)
Definition truediv_int (a b : Z) : outcome Q :=
  if b =? 0 then Raised ZeroDivisionError
  else Returned (inject_Z a / inject_Z b)%Q.

(** [int(x)] for a real: truncation toward zero. *)
Definition int_of_float (x : Q) : Z := Z.quot (Qnum x) (Z.pos (Qden x)).

(** [str(n)] for an int: its decimal digits, after a minus sign when it is
    negative.  [str_digits] writes the digits of a non-negative [n] in front
    of [acc], least significant first; the fuel is the number of bits of
    [n], which is never less than its number of decimal digits. *)
Definition digit_char (d : Z) : ascii := ascii_of_nat (48 + Z.to_nat d).

Fixpoint str_digits (fuel : nat) (n : Z) (acc : string) : string :=
  match fuel with
  | O => acc
  | S f =>
      let acc' := String (digit_char (n mod 10)) acc in
      if n <? 10 then acc' else str_digits f (n / 10) acc'
  end.

Definition str_nonneg (n : Z) : string :=
  str_digits (S (Z.to_nat (Z.log2 n))) n EmptyString.

Definition str_int (n : Z) : string :=
  if n <? 0 then String "-" (str_nonneg (- n)) else str_nonneg n.

End Py.

(** ** The server [server/mcp_server_paysim.py] *)

Module Server.

(** Modelled from the spec: the schema of the table [transactions] is not
    part of the sources; the columns and their types follow the data model
    of the specification (integer [id] and [step], categorical [type], real
    amounts and balances, string account identifiers, boolean labels).  No
    column is NULL. *)
Record Transaction : Type := mkTransaction {
  id : Z;
  step : Z;
  type : string;
  amount : Q;
  name_orig : string;
  oldbalance_org : Q;
  newbalance_org : Q;
  name_dest : string;
  oldbalance_dest : Q;
  newbalance_dest : Q;
  is_fraud : bool;
  is_flagged_fraud : bool
}.

Definition table : Type := list Transaction.

(** *** SQL operators used by the queries *)

(** [COUNT( * ) FILTER (WHERE p)]. *)
Definition sql_count (p : Transaction -> bool) (db : table) : Z :=
  Z.of_nat (List.length (filter p db)).

(** [SUM(amount) FILTER (WHERE p)]: NULL (here [None]) when no row passes. *)
Definition sql_sum_amount (p : Transaction -> bool) (db : table) : option Q :=
  match filter p db with
  | [] => None
  | rows => Some (fold_left Qplus (map amount rows) 0%Q)
  end.

(** [COALESCE(x, d)]. *)
Definition coalesce (x : option Q) (d : Q) : Q :=
  match x with
  | Some q => q
  | None => d
  end.

(** [step BETWEEN a AND b]. *)
Definition between (x a b : Z) : bool := ((a <=? x) && (x <=? b))%bool.

(** [ORDER BY], by insertion: [before x y] tells that [x] may come before
    [y]; rows that compare equal keep the enumeration order of the store. *)
Fixpoint insert_by {A : Type} (before : A -> A -> bool) (x : A) (l : list A)
  : list A :=
  match l with
  | [] => [x]
  | y :: r => if before x y then x :: y :: r else y :: insert_by before x r
  end.

Fixpoint order_by {A : Type} (before : A -> A -> bool) (l : list A) : list A :=
  match l with
  | [] => []
  | x :: r => insert_by before x (order_by before r)
  end.

(** The largest value of a [bigint] of the store. *)
Definition bigint_max : Z := 9223372036854775807.

(** [LIMIT n]: the count is a [bigint].  A negative [n] is refused by the
    store, and an [n] above [bigint_max] is refused when the query is
    read.  A result of at most [n] rows is given whole, a longer one is
    cut at [n].  No result has more than [bigint_max] rows: the second
    refusal is modelled on the results of at most [n] rows. *)
Definition limit {A : Type} (n : Z) (l : list A) : Py.outcome (list A) :=
  if n <? 0 then Py.Raised Py.DatabaseError
  else if Py.len l <=? n then
    if bigint_max <? n then Py.Raised Py.DatabaseError else Py.Returned l
  else Py.Returned (firstn (Z.to_nat n) l).

(** [GROUP BY type] with [COUNT( * )]: one pair per type, in the order of
    first appearance. *)
Fixpoint bump (t : string) (groups : list (string * Z)) : list (string * Z) :=
  match groups with
  | [] => [(t, 1)]
  | (u, c) :: r => if String.eqb t u then (u, c + 1) :: r else (u, c) :: bump t r
  end.

Definition group_by_type (rows : list Transaction) : list (string * Z) :=
  fold_left (fun groups r => bump (type r) groups) rows [].

(** *** Python string operations used by [resource_read] *)

(** [s.split("/", 1)]: the text before the first ["/"], and the text after
    it when there is one. *)
Fixpoint split_slash (s : string) : string * option string :=
  match s with
  | EmptyString => (EmptyString, None)
  | String c r =>
      if Ascii.eqb c "/" then (EmptyString, Some r)
      else let '(a, b) := split_slash r in (String c a, b)
  end.

(** [s.split("/", 1)[1]]. *)
Definition after_slash (s : string) : Py.outcome string :=
  match snd (split_slash s) with
  | Some r => Py.Returned r
  | None => Py.Raised Py.IndexError
  end.

Definition is_space (c : ascii) : bool :=
  let n := nat_of_ascii c in
  (Nat.eqb n 32 || (Nat.leb 9 n && Nat.leb n 13))%bool.

Fixpoint lstrip (s : string) : string :=
  match s with
  | String c r => if is_space c then lstrip r else s
  | EmptyString => EmptyString
  end.

Fixpoint rev_string (s acc : string) : string :=
  match s with
  | EmptyString => acc
  | String c r => rev_string r (String c acc)
  end.

Definition strip (s : string) : string :=
  rev_string (lstrip (rev_string (lstrip s) EmptyString)) EmptyString.

Definition digit_of (c : ascii) : option Z :=
  let n := nat_of_ascii c in
  if (Nat.leb 48 n && Nat.leb n 57)%bool then Some (Z.of_nat (n - 48)) else None.

(** Digits, with single underscores allowed between two digits. *)
Fixpoint digits (s : string) (acc : Z) (after_digit : bool) : option Z :=
  match s with
  | EmptyString => if after_digit then Some acc else None
  | String c r =>
      match digit_of c with
      | Some d => digits r (10 * acc + d) true
      | None => if (Ascii.eqb c "_" && after_digit)%bool
                then digits r acc false
                else None
      end
  end.

(** [int(s)] for a string of ASCII characters: surrounding white space, an
    optional sign, decimal digits.  Anything else raises [ValueError]. *)
Definition py_int (s : string) : Py.outcome Z :=
  let body := strip s in
  let parsed :=
    match body with
    | String "-" r => option_map Z.opp (digits r 0 false)
    | String "+" r => digits r 0 false
    | _ => digits body 0 false
    end in
  match parsed with
  | Some n => Py.Returned n
  | None => Py.Raised Py.ValueError
  end.

(** *** [resource_read] *)

(** The dicts [resource_read] returns, one constructor per shape. *)
Inductive resource : Type :=
| AccountResource (name : string) (nb_out : Z) (total_out : Q) (nb_in : Z)
    (total_in : Q) (fraud_out : Z)
| TransactionNotFound (tx_id : Z)
| TransactionResource (row : Transaction)
| UnknownResource (uri : string).

(** [resource_read(uri)].  The name of an account is sent to the store as
    the parameter of the query: as everywhere in this file it is taken
    without NUL character, which the driver would refuse with
    [ValueError]. *)
Definition resource_read (db : table) (uri : string) : Py.outcome resource :=
  if String.prefix "account/" uri then
    Py.bind (after_slash uri) (fun name =>
      let nb_out := sql_count (fun r => String.eqb (name_orig r) name) db in
      let total_out :=
        coalesce (sql_sum_amount (fun r => String.eqb (name_orig r) name) db) 0 in
      let nb_in := sql_count (fun r => String.eqb (name_dest r) name) db in
      let total_in :=
        coalesce (sql_sum_amount (fun r => String.eqb (name_dest r) name) db) 0 in
      let fraud_out :=
        sql_count (fun r => (String.eqb (name_orig r) name && is_fraud r)%bool) db in
      Py.Returned (AccountResource name nb_out total_out nb_in total_in fraud_out))
  else if String.prefix "transaction/" uri then
    Py.bind (after_slash uri) (fun tail =>
    Py.bind (py_int tail) (fun tx_id =>
      match find (fun r => id r =? tx_id) db with
      | None => Py.Returned (TransactionNotFound tx_id)
      | Some row => Py.Returned (TransactionResource row)
      end))
  else Py.Returned (UnknownResource uri).

(** *** [tool_get_account_kpi] *)

(** [a / n] for a float [a] and an int [n]: division by zero raises. *)
Definition truediv (a : Q) (n : Z) : Py.outcome Q :=
  if n =? 0 then Py.Raised Py.ZeroDivisionError
  else Py.Returned (a / inject_Z n)%Q.

(** The dict under ["out"]. *)
Record KpiOut : Type := mkKpiOut {
  nb_out : Z;
  total_out : Q;
  avg_out_amount : Q;
  fraud_out : Z
}.

(** The dict under ["in"]. *)
Record KpiIn : Type := mkKpiIn {
  nb_in : Z;
  total_in : Q;
  avg_in_amount : Q
}.

(** The dict returned by [tool_get_account_kpi]. *)
Record AccountKpi : Type := mkAccountKpi {
  kpi_name : string;
  kpi_step_from : Z;
  kpi_step_to : Z;
  kpi_out : KpiOut;
  kpi_in : KpiIn;
  top_out_types : list (string * Z)
}.

Definition tool_get_account_kpi (db : table) (name : string)
    (step_from step_to : option Z) : Py.outcome AccountKpi :=
  let step_from := Py.if_not_none step_from 1 in
  let step_to := Py.if_not_none step_to 200 in
  let outgoing (r : Transaction) : bool :=
    (String.eqb (name_orig r) name && between (step r) step_from step_to)%bool in
  let incoming (r : Transaction) : bool :=
    (String.eqb (name_dest r) name && between (step r) step_from step_to)%bool in
  let nb_out := sql_count outgoing db in
  let total_out := coalesce (sql_sum_amount outgoing db) 0 in
  let nb_in := sql_count incoming db in
  let total_in := coalesce (sql_sum_amount incoming db) 0 in
  let fraud_out :=
    sql_count (fun r => (String.eqb (name_orig r) name && is_fraud r
                         && between (step r) step_from step_to)%bool) db in
  Py.bind (limit 5 (order_by (fun g h : string * Z => snd h <=? snd g)
                      (group_by_type (filter outgoing db))))
    (fun top_types =>
  Py.bind (if nb_out =? 0 then Py.Returned 0%Q else truediv total_out nb_out)
    (fun avg_out =>
  Py.bind (if nb_in =? 0 then Py.Returned 0%Q else truediv total_in nb_in)
    (fun avg_in =>
  Py.Returned
    {| kpi_name := name;
       kpi_step_from := step_from;
       kpi_step_to := step_to;
       kpi_out := {| nb_out := nb_out; total_out := total_out;
                     avg_out_amount := avg_out; fraud_out := fraud_out |};
       kpi_in := {| nb_in := nb_in; total_in := total_in;
                    avg_in_amount := avg_in |};
       top_out_types := top_types |}))).

(** *** [tool_detect_suspicious] *)

(** One element of ["matches"]: the seven columns the query selects. *)
Record Match : Type := mkMatch {
  m_id : Z;
  m_step : Z;
  m_type : string;
  m_amount : Q;
  m_name_orig : string;
  m_name_dest : string;
  m_is_fraud : bool
}.

Definition match_of_row (r : Transaction) : Match :=
  {| m_id := id r;
     m_step := step r;
     m_type := type r;
     m_amount := amount r;
     m_name_orig := name_orig r;
     m_name_dest := name_dest r;
     m_is_fraud := is_fraud r |}.

(** The dict returned by [tool_detect_suspicious]. *)
Record Detection : Type := mkDetection {
  det_name : string;
  min_amount : Q;
  window_steps : Z;
  max_rows : Z;
  matches : list Match;
  det_note : string
}.

(** The WHERE clause of the detection query. *)
Definition candidate (name : string) (min_amount : Q) (r : Transaction) : bool :=
  (String.eqb (name_orig r) name
   && Qle_bool min_amount (amount r)
   && (String.eqb (type r) "TRANSFER" || String.eqb (type r) "CASH_OUT"))%bool.

(** [ORDER BY amount DESC]. *)
Definition amount_desc (x y : Transaction) : bool :=
  Qle_bool (amount y) (amount x).

Definition tool_detect_suspicious (db : table) (name : string)
    (min_amount : option Q) (window_steps max_rows : option Z)
  : Py.outcome Detection :=
  let min_amount := Py.if_not_none min_amount (200000 # 1) in
  let window_steps := Py.if_not_none window_steps 10 in
  let max_rows := Py.if_not_none max_rows 10 in
  Py.bind (limit max_rows
             (order_by amount_desc (filter (candidate name min_amount) db)))
    (fun rows =>
  Py.Returned
    {| det_name := name;
       min_amount := min_amount;
       window_steps := window_steps;
       max_rows := max_rows;
       matches := map match_of_row rows;
       det_note := "Règles simples de démo (pas de ML)." |}).

(** *** SQL aggregates used by the queries of [ui/app.py] *)

(** [MAX(amount)] over the rows selected: NULL when there is none. *)
Definition sql_max_amount (rows : list Transaction) : option Q :=
  match rows with
  | [] => None
  | r :: rest =>
      Some (fold_left (fun m x => if Qle_bool m (amount x) then amount x else m)
              rest (amount r))
  end.

(** [AVG(amount)] over the rows selected: NULL when there is none. *)
Definition sql_avg_amount (rows : list Transaction) : option Q :=
  match rows with
  | [] => None
  | _ => Some (fold_left Qplus (map amount rows) 0 / inject_Z (Py.len rows))%Q
  end.

(** [MIN(step)] and [MAX(step)] over the rows selected. *)
Definition sql_min_step (rows : list Transaction) : option Z :=
  match rows with
  | [] => None
  | r :: rest => Some (fold_left (fun m x => Z.min m (step x)) rest (step r))
  end.

Definition sql_max_step (rows : list Transaction) : option Z :=
  match rows with
  | [] => None
  | r :: rest => Some (fold_left (fun m x => Z.max m (step x)) rest (step r))
  end.

(** [percentile_cont(fraction) WITHIN GROUP (ORDER BY amount)]: the value
    at position [fraction * (N - 1)] of the amounts in ascending order,
    interpolated linearly between the two neighbouring rows; NULL when
    there is no row. *)
Definition percentile_cont (fraction : Q) (rows : list Transaction) : option Q :=
  match rows with
  | [] => None
  | _ =>
      let sorted := order_by Qle_bool (map amount rows) in
      let pos := (fraction * inject_Z (Py.len rows - 1))%Q in
      let lo := Qfloor pos in
      let hi := Qceiling pos in
      let vlo := nth (Z.to_nat lo) sorted 0%Q in
      let vhi := nth (Z.to_nat hi) sorted 0%Q in
      if lo =? hi then Some vlo
      else Some (vlo + (vhi - vlo) * (pos - inject_Z lo))%Q
  end.

(** [type IN ('TRANSFER', 'CASH_OUT')]. *)
Definition risky (r : Transaction) : bool :=
  (String.eqb (type r) "TRANSFER" || String.eqb (type r) "CASH_OUT")%bool.

(** *** Notions used to state the properties of the server *)



(** Some row of the table has this id. *)
Definition transaction_known (db : table) (tx_id : Z) : bool :=
  existsb (fun r => id r =? tx_id) db.

(** [a] comes before [b] under [ORDER BY amount DESC]. *)
Definition amount_ge (a b : Match) : Prop := (m_amount b <= m_amount a)%Q.

(** The WHERE clauses of the KPI query, for an account and a range of
    steps. *)
Definition outgoing (name : string) (a b : Z) (r : Transaction) : bool :=
  (String.eqb (name_orig r) name && between (step r) a b)%bool.

Definition incoming (name : string) (a b : Z) (r : Transaction) : bool :=
  (String.eqb (name_dest r) name && between (step r) a b)%bool.

Definition outgoing_fraud (name : string) (a b : Z) (r : Transaction) : bool :=
  (String.eqb (name_orig r) name && is_fraud r && between (step r) a b)%bool.

(** Sum of the counts of a list of groups. *)
Definition total_count (groups : list (string * Z)) : Z :=
  fold_right (fun g acc => snd g + acc) 0 groups.

(** The count recorded for a type in a list of groups, 0 when the type is
    not listed. *)
Fixpoint group_count (t : string) (groups : list (string * Z)) : Z :=
  match groups with
  | [] => 0
  | (u, c) :: r => if String.eqb t u then c else group_count t r
  end.

(** Number of rows of a given type. *)
Definition count_type (t : string) (rows : list Transaction) : Z :=
  Py.len (filter (fun r => String.eqb (type r) t) rows).

(** [g] comes before [h] under [ORDER BY cnt DESC]. *)
Definition count_ge (g h : string * Z) : Prop := snd h <= snd g.

(** A small table: account C100 sends four risky transfers and one payment. *)
Definition sample_db : table :=
  [ mkTransaction 1 1 "TRANSFER" (300000 # 1) "C100" (300000 # 1) 0 "C200" 0 0 false false;
    mkTransaction 2 3 "CASH_OUT" (500000 # 1) "C100" (500000 # 1) 0 "C300" 0 0 true false;
    mkTransaction 3 3 "PAYMENT" (900000 # 1) "C100" (900000 # 1) 0 "M400" 0 0 false false;
    mkTransaction 4 250 "TRANSFER" (250000 # 1) "C100" (250000 # 1) 0 "C200" 0 0 false false;
    mkTransaction 7 9 "TRANSFER" (500000 # 1) "C100" (800000 # 1) (300000 # 1) "C300" 0 0 false false ].

(** No character of the string is NUL, the one character the driver
    refuses in a text sent to the store as the parameter of a query. *)
Fixpoint no_nul (s : string) : bool :=
  match s with
  | EmptyString => true
  | String c r => (negb (Ascii.eqb c "000") && no_nul r)%bool
  end.

(** No character of the string is white space. *)
Fixpoint no_space (s : string) : bool :=
  match s with
  | EmptyString => true
  | String c r => (negb (is_space c) && no_space r)%bool
  end.

(** A table where account C100 only sends transfers and cash-outs. *)
Definition transfers_db : table :=
  [ mkTransaction 1 1 "TRANSFER" (300000 # 1) "C100" (300000 # 1) 0 "C200" 0 0 false false;
    mkTransaction 2 3 "CASH_OUT" (500000 # 1) "C100" (500000 # 1) 0 "C300" 0 0 true false;
    mkTransaction 3 4 "PAYMENT" (700000 # 1) "C900" (900000 # 1) (200000 # 1) "M400" 0 0 false false ].

(** A table whose only transfer moves nothing. *)
Definition zero_db : table :=
  [ mkTransaction 1 1 "TRANSFER" 0 "C700" 0 0 "C800" 0 0 false false ].

(** A table with one small payment. *)
Definition small_db : table :=
  [ mkTransaction 1 1 "PAYMENT" (181 # 1) "C500" (181 # 1) 0 "M600" 0 0 false false ].

(** What the detector returns for account C100 of the sample table at a
    given threshold, with the other parameters left to their defaults. *)
Definition sample_detection (threshold : Q) : Detection :=
  {| det_name := "C100";
     min_amount := threshold;
     window_steps := 10;
     max_rows := 10;
     matches :=
       map match_of_row
         (firstn 10 (order_by amount_desc
                       (filter (candidate "C100" threshold) sample_db)));
     det_note := "Règles simples de démo (pas de ML)." |}.

End Server.

(** ** The scoring engine of [ui/app.py] *)

Module App.

(** An f-string is kept as its sequence of pieces: literal text, an amount
    rendered by [fmt_eur], an integer rendered in decimal.  The rendering of
    numbers as text is left to the presentation layer. *)
Inductive fragment : Type :=
| Lit (s : string)
| Eur (x : Q)
| Num (n : Z).

Definition text : Type := list fragment.

(** [fmt_eur(x)], unrendered. *)
Definition fmt_eur (x : Q) : fragment := Eur x.

(** [kpi["out"]]. *)
Record OutKpi : Type := mkOutKpi {
  nb_out : option Z;
  total_out : option Q;
  avg_out_amount : option Q;
  fraud_out : option Z
}.

(** [kpi["in"]]. *)
Record InKpi : Type := mkInKpi {
  nb_in : option Z;
  total_in : option Q
}.

(** The [kpi] argument (the fields [build_insights] reads). *)
Record Kpi : Type := mkKpi {
  kpi_out : option OutKpi;
  kpi_in : option InKpi
}.

(** The [suspicious] argument (the fields [build_insights] reads). *)
Record Suspicious : Type := mkSuspicious {
  matches : option (list Server.Match);
  min_amount : option Q;
  window_steps : option Z
}.

(** The [tx] argument when it is a non-empty dict (the fields
    [build_insights] reads).  [tx = None] stands for both [None] and the
    empty dict, which [if tx:] does not tell apart. *)
Record Tx : Type := mkTx {
  tx_type : option string;
  tx_amount : option Q;
  tx_is_fraud : option bool;
  tx_oldbalance_org : option Q;
  tx_newbalance_org : option Q
}.

(** One element of [breakdown]. *)
Record Entry : Type := mkEntry {
  rule : string;
  points : Z;
  triggered : bool;
  why : text
}.

(** The dict returned by [build_insights]. *)
Record Insights : Type := mkInsights {
  score : Z;
  title : text;
  bullets : list text;
  next_actions : list string;
  breakdown : list Entry;
  note : string
}.

Definition risk_label (score : Z) : string :=
  if 80 <=? score then "Élevé"
  else if 50 <=? score then "Modéré"
  else "Faible".

(** The closure [add_rule]: its two captured variables, [score] and
    [breakdown], are threaded as a pair. *)
Definition scoring_state : Type := (Z * list Entry)%type.

Definition add_rule (st : scoring_state) (rule : string) (pts : Z)
    (triggered : bool) (why : text) : scoring_state :=
  let '(score, breakdown) := st in
  (if triggered then score + pts else score,
   breakdown ++ [ {| rule := rule;
                     points := if triggered then pts else 0;
                     triggered := triggered;
                     why := why |} ]).

(** Fields read from the arguments, with their defaults. *)
Definition out_of (kpi : option Kpi) : OutKpi :=
  match kpi with
  | Some k => match kpi_out k with
              | Some o => o
              | None => mkOutKpi None None None None
              end
  | None => mkOutKpi None None None None
  end.

Definition in_of (kpi : option Kpi) : InKpi :=
  match kpi with
  | Some k => match kpi_in k with
              | Some i => i
              | None => mkInKpi None None
              end
  | None => mkInKpi None None
  end.

Definition matches_of (suspicious : option Suspicious) : list Server.Match :=
  match suspicious with
  | Some s => Py.list_or (matches s) []
  | None => []
  end.

Definition min_amount_of (suspicious : option Suspicious) : Q :=
  match suspicious with
  | Some s => Py.float_or (min_amount s) (200000 # 1)
  | None => 200000 # 1
  end.

Definition window_steps_of (suspicious : option Suspicious) : Z :=
  match suspicious with
  | Some s => Py.int_or (window_steps s) 10
  | None => 10
  end.

(** [ttype in ("TRANSFER", "CASH_OUT")]. *)
Definition risky_type (ttype : string) : bool :=
  (String.eqb ttype "TRANSFER" || String.eqb ttype "CASH_OUT")%bool.

(** The three tests made on the consulted transaction. *)
Definition tx_labelled_fraud (t : Tx) : bool := Py.bool_of (tx_is_fraud t).

Definition tx_drained (t : Tx) : bool :=
  let ttype := Py.upper (Py.str_or (tx_type t) EmptyString) in
  let oldb := Py.float_or (tx_oldbalance_org t) 0 in
  let newb := Py.float_or (tx_newbalance_org t) 0 in
  (risky_type ttype && Py.gt oldb 0 && Py.eq newb 0)%bool.

Definition tx_large (t : Tx) (min_amount : Q) : bool :=
  let amt := Py.float_or (tx_amount t) 0 in
  Py.ge amt min_amount.

(** The block [tx_points = 0; tx_reason = []; if tx: ...]: the pair
    [(tx_points, tx_reason)] after it. *)
Definition tx_signal (tx : option Tx) (min_amount : Q) : Z * list string :=
  match tx with
  | None => (0, [])
  | Some t =>
      let s0 : Z * list string := (0, []) in
      let s1 := if tx_labelled_fraud t
                then (fst s0 + 15, snd s0 ++ ["transaction labellisée frauduleuse"%string])
                else s0 in
      let s2 := if tx_drained t
                then (fst s1 + 10, snd s1 ++ ["solde vidé sur TRANSFER/CASH_OUT"%string])
                else s1 in
      let s3 := if tx_large t min_amount
                then (fst s2 + 10, snd s2 ++ ["montant ≥ seuil"%string])
                else s2 in
      s3
  end.

Definition tx_points (tx : option Tx) (min_amount : Q) : Z :=
  fst (tx_signal tx min_amount).

Definition tx_reason (tx : option Tx) (min_amount : Q) : list string :=
  snd (tx_signal tx min_amount).

(** [bool(tx)]. *)
Definition tx_truthy (tx : option Tx) : bool :=
  match tx with
  | Some _ => true
  | None => false
  end.

(** Trigger conditions of the six account rules, in the order of the calls
    to [add_rule]. *)
Section Triggers.

Variables (kpi : option Kpi) (suspicious : option Suspicious).

Let nb_out' := Py.int_or (nb_out (out_of kpi)) 0.
Let total_out' := Py.float_or (total_out (out_of kpi)) 0.
Let avg_out' := Py.float_or (avg_out_amount (out_of kpi)) 0.
Let fraud_out' := Py.int_or (fraud_out (out_of kpi)) 0.
Let total_in' := Py.float_or (total_in (in_of kpi)) 0.
Let matches' := matches_of suspicious.
Let min_amount' := min_amount_of suspicious.

Definition trig_concentration : bool :=
  ((nb_out' <=? 2) && Py.ge total_out' min_amount')%bool.

Definition trig_high_average : bool :=
  (Py.ge avg_out' min_amount' && (0 <? nb_out'))%bool.

Definition trig_one_match : bool := 1 <=? Py.len matches'.

Definition trig_many_matches : bool := 3 <=? Py.len matches'.

Definition trig_labelled_fraud : bool := 0 <? fraud_out'.

Definition trig_imbalance : bool :=
  (Py.eq total_in' 0 && Py.gt total_out' 0)%bool.

End Triggers.

(** The state after the six account rules (lines 264 to 319). *)
Definition account_rules (kpi : option Kpi) (suspicious : option Suspicious)
  : scoring_state :=
  let min_amount := min_amount_of suspicious in
  let window_steps := window_steps_of suspicious in
  let st : scoring_state := (0, []) in
  let st := add_rule st "Concentration des sorties" 25
              (trig_concentration kpi suspicious)
              [Lit "nb_out ≤ 2 et total_out ≥ seuil ("; fmt_eur min_amount; Lit ")"] in
  let st := add_rule st "Montant moyen sortant élevé" 20
              (trig_high_average kpi suspicious)
              [Lit "avg_out ≥ seuil ("; fmt_eur min_amount; Lit ")"] in
  let st := add_rule st "Au moins 1 match détecté" 25
              (trig_one_match suspicious)
              [Lit "≥ 1 transaction sortante ≥ "; fmt_eur min_amount;
               Lit " dans une fenêtre de "; Num window_steps; Lit " steps"] in
  let st := add_rule st "Plusieurs matchs (≥ 3)" 10
              (trig_many_matches suspicious)
              [Lit "≥ 3 transactions détectées avec les paramètres de détection"] in
  let st := add_rule st "Fraude labellisée (dataset)" 25
              (trig_labelled_fraud kpi)
              [Lit "Au moins une transaction sortante est marquée is_fraud=True (donnée simulée PaySim)"] in
  let st := add_rule st "Déséquilibre (aucune entrée)" 10
              (trig_imbalance kpi)
              [Lit "total_in = 0 alors que total_out > 0"] in
  st.

(** The state after the rule on the consulted transaction (lines 321 to
    346): the call to [add_rule] is made whether or not [tx] is given. *)
Definition all_rules (kpi : option Kpi) (suspicious : option Suspicious)
    (tx : option Tx) : scoring_state :=
  let min_amount := min_amount_of suspicious in
  let tx_points := tx_points tx min_amount in
  let tx_reason := tx_reason tx min_amount in
  add_rule (account_rules kpi suspicious)
    "Signal sur la transaction consultée"
    (Z.min tx_points 20)
    (tx_truthy tx && (0 <? tx_points))%bool
    (match tx_reason with
     | [] => [Lit EmptyString]
     | _ => [Lit (Py.join "; " tx_reason)]
     end).

(** [build_insights(kpi, suspicious, tx)]. *)
Definition build_insights (kpi : option Kpi) (suspicious : option Suspicious)
    (tx : option Tx) : Insights :=
  let nb_out := Py.int_or (nb_out (out_of kpi)) 0 in
  let total_out := Py.float_or (total_out (out_of kpi)) 0 in
  let avg_out := Py.float_or (avg_out_amount (out_of kpi)) 0 in
  let fraud_out := Py.int_or (fraud_out (out_of kpi)) 0 in
  let nb_in := Py.int_or (nb_in (in_of kpi)) 0 in
  let total_in := Py.float_or (total_in (in_of kpi)) 0 in
  let matches := matches_of suspicious in
  let min_amount := min_amount_of suspicious in
  let window_steps := window_steps_of suspicious in
  let '(score, breakdown) := all_rules kpi suspicious tx in
  let score := Z.min score 100 in
  let bullets : list text :=
    [ [Lit "Transactions sortantes: **"; Num nb_out; Lit "** pour un total de **";
       fmt_eur total_out; Lit "** (moyenne: "; fmt_eur avg_out; Lit ")."];
      [Lit "Transactions entrantes: **"; Num nb_in; Lit "** pour un total de **";
       fmt_eur total_in; Lit "**."] ] in
  let bullets :=
    if 0 <? fraud_out
    then bullets ++ [ [Lit "⚠️ Fraude sortante observée (label dataset): **";
                       Num fraud_out; Lit "** transaction(s)."] ]
    else bullets in
  let bullets :=
    if Py.len matches =? 0
    then bullets ++ [ [Lit "Aucun transfert sortant > **"; fmt_eur min_amount;
                       Lit "** détecté dans une fenêtre de **"; Num window_steps;
                       Lit " steps**."] ]
    else bullets ++ [ [Lit "⚠️ **"; Num (Py.len matches);
                       Lit "** transfert(s) suspect(s) détecté(s) (seuil: ";
                       fmt_eur min_amount; Lit ", fenêtre: "; Num window_steps;
                       Lit " steps)."] ] in
  let bullets :=
    match tx with
    | None => bullets
    | Some t =>
        let b1 := if tx_labelled_fraud t
                  then bullets ++ [ [Lit "🔴 La transaction consultée est **labellisée frauduleuse** dans le dataset (simulation)."] ]
                  else bullets in
        let b2 := if tx_drained t
                  then b1 ++ [ [Lit "Pattern: **solde vidé** sur une opération à risque (TRANSFER/CASH_OUT)."] ]
                  else b1 in
        let b3 := if tx_large t min_amount
                  then b2 ++ [ [Lit "Pattern: **montant très élevé** par rapport au seuil de détection."] ]
                  else b2 in
        b3
    end in
  let next_actions : list string :=
    if 80 <=? score then
      [ "Mettre le compte en **revue prioritaire** (contrôle manuel).";
        "Vérifier la **cohérence des soldes** (old/new) sur les transferts détectés.";
        "Analyser les **contreparties fréquentes** (name_dest) et la concentration temporelle (steps)." ]%string
    else if 50 <=? score then
      [ "Contrôle ciblé des transferts > seuil et de la **fenêtre de steps**.";
        "Comparer ce compte à des comptes similaires (même type/volumes)." ]%string
    else
      [ "Aucun signal fort : surveiller via alerting simple.";
        "Affiner le seuil si tu veux être plus sensible (mais + faux positifs)." ]%string in
  let title : text :=
    [Lit "Risque global: **"; Lit (risk_label score); Lit "** (score "; Num score;
     Lit "/100)"] in
  {| score := score;
     title := title;
     bullets := bullets;
     next_actions := next_actions;
     breakdown := breakdown;
     note := "Règles simples de démo (pas de ML) : seuils + fenêtres + patterns explicables." |}.

(** *** The other helpers of [ui/app.py] *)

Definition risk_badge (n_matches : Z) (max_amt : Q) : string :=
  if n_matches =? 0 then "🟢 Faible"
  else if ((3 <=? n_matches) || Py.ge max_amt (1000000 # 1))%bool then "🔴 Élevé"
  else "🟠 Moyen".

(** The dict returned by [suggest_detection_params]. *)
Record Suggestion : Type := mkSuggestion {
  sug_nb_out : Z;
  sug_avg_amt : Q;
  sug_max_amt : Q;
  sug_p95 : Q;
  sug_min_amount : Q;
  sug_window_steps : Z;
  sug_step_span : Z;
  sug_density : Q
}.

Definition suggest_detection_params (db : Server.table) (account : string)
  : Py.outcome Suggestion :=
  let rows := filter (fun r => String.eqb (Server.name_orig r) account) db in
  let nb_out := Py.len rows in
  let avg_amt := Server.coalesce (Server.sql_avg_amount rows) 0 in
  let max_amt := Server.coalesce (Server.sql_max_amount rows) 0 in
  let step_min := Py.if_not_none (Server.sql_min_step rows) 0 in
  let step_max := Py.if_not_none (Server.sql_max_step rows) 0 in
  let p95 := Server.coalesce (Server.percentile_cont (95 # 100) rows) 0 in
  let nb_out := Py.int_or (Some nb_out) 0 in
  let avg_amt := Py.float_or (Some avg_amt) 0 in
  let max_amt := Py.float_or (Some max_amt) 0 in
  let p95 := Py.float_or (Some p95) 0 in
  let step_min := Py.int_or (Some step_min) 0 in
  let step_max := Py.int_or (Some step_max) 0 in
  let base := Py.max2 (Py.max2 p95 (avg_amt * (2 # 1))%Q) (50000 # 1) in
  let base := if Py.gt max_amt 0 then Py.min2 base max_amt else base in
  let min_amount := inject_Z (Py.int_of_float (base / (1000 # 1))%Q * 1000) in
  let min_amount := if Qle_bool min_amount 0 then 50000 # 1 else min_amount in
  let window_steps :=
    if 30 <=? nb_out then 5
    else if 10 <=? nb_out then 10
    else 20 in
  let span := Z.max 0 (step_max - step_min) in
  Py.bind (if 0 <? span then Py.truediv_int nb_out span
           else Py.Returned (if nb_out =? 0 then 0%Q else inject_Z nb_out))
    (fun density =>
  Py.Returned
    {| sug_nb_out := nb_out;
       sug_avg_amt := avg_amt;
       sug_max_amt := max_amt;
       sug_p95 := p95;
       sug_min_amount := min_amount;
       sug_window_steps := window_steps;
       sug_step_span := span;
       sug_density := density |}).

(** The dict returned by [risky_out_stats]. *)
Record RiskyStats : Type := mkRiskyStats {
  nb_risky_out : Z;
  max_risky_amount : Q;
  p95_risky_amount : Q
}.

Definition risky_out_stats (db : Server.table) (account : string) : RiskyStats :=
  let rows :=
    filter (fun r => (String.eqb (Server.name_orig r) account
                      && Server.risky r)%bool) db in
  {| nb_risky_out := Py.int_or (Some (Py.len rows)) 0;
     max_risky_amount :=
       Py.float_or (Some (Server.coalesce (Server.sql_max_amount rows) 0)) 0;
     p95_risky_amount :=
       Py.float_or
         (Some (Server.coalesce (Server.percentile_cont (95 # 100) rows) 0)) 0 |}.

(** The dict returned by [global_overview]. *)
Record Overview : Type := mkOverview {
  ov_n : Z;
  ov_n_fraud : Z;
  ov_fraud_rate : Q;
  ov_step_min : option Z;
  ov_step_max : option Z;
  ov_top_types : list (string * Z)
}.

Definition global_overview (db : Server.table) : Py.outcome Overview :=
  let n := Py.len db in
  let n_fraud := Py.len (filter Server.is_fraud db) in
  Py.bind (Server.limit 10
             (Server.order_by (fun g h : string * Z => snd h <=? snd g)
                (Server.group_by_type db)))
    (fun top_types =>
  Py.bind (if n =? 0 then Py.Returned 0%Q else Py.truediv_int n_fraud n)
    (fun fraud_rate =>
  Py.Returned
    {| ov_n := n;
       ov_n_fraud := n_fraud;
       ov_fraud_rate := fraud_rate;
       ov_step_min := Server.sql_min_step db;
       ov_step_max := Server.sql_max_step db;
       ov_top_types := top_types |})).

(** *** The calls the pages make *)

(** The URI of the lookup page, [f"transaction/{int(tx_id)}"]. *)
Definition transaction_uri (tx_id : Z) : string :=
  ("transaction/" ++ Py.str_int tx_id)%string.

(** A result of the server, as the page receives it after the JSON
    transport: every key is present. *)
Definition kpi_json (k : Server.AccountKpi) : Kpi :=
  {| kpi_out :=
       Some {| nb_out := Some (Server.nb_out (Server.kpi_out k));
               total_out := Some (Server.total_out (Server.kpi_out k));
               avg_out_amount := Some (Server.avg_out_amount (Server.kpi_out k));
               fraud_out := Some (Server.fraud_out (Server.kpi_out k)) |};
     kpi_in :=
       Some {| nb_in := Some (Server.nb_in (Server.kpi_in k));
               total_in := Some (Server.total_in (Server.kpi_in k)) |} |}.

Definition detection_json (d : Server.Detection) : Suspicious :=
  {| matches := Some (Server.matches d);
     min_amount := Some (Server.min_amount d);
     window_steps := Some (Server.window_steps d) |}.

Definition tx_json (r : Server.Transaction) : Tx :=
  {| tx_type := Some (Server.type r);
     tx_amount := Some (Server.amount r);
     tx_is_fraud := Some (Server.is_fraud r);
     tx_oldbalance_org := Some (Server.oldbalance_org r);
     tx_newbalance_org := Some (Server.newbalance_org r) |}.

(** The detection page (lines 689 to 756): the detector is called without
    [max_rows], then the KPIs over steps 1 to 200, then [build_insights]
    without transaction.  A call answered by an error stops the page
    before the insights. *)
Definition detection_page_insights (db : Server.table) (name : string)
    (min_amount : Q) (window_steps : Z) : Py.outcome Insights :=
  Py.bind (Server.tool_detect_suspicious db name (Some min_amount)
             (Some window_steps) None)
    (fun r =>
  Py.bind (Server.tool_get_account_kpi db name (Some 1) (Some 200))
    (fun k =>
  Py.Returned (build_insights (Some (kpi_json k)) (Some (detection_json r)) None))).

(** The lookup page (lines 885 to 917): the transaction is read through
    its URI; when the result names an origin account, the KPIs and the
    detection of that account are computed with the fixed parameters of
    the page and [build_insights] receives the transaction.  [None]: no
    insights are shown. *)
Definition lookup_page_insights (db : Server.table) (tx_id : Z)
  : Py.outcome (option Insights) :=
  Py.bind (Server.resource_read db (transaction_uri tx_id)) (fun res =>
    match res with
    | Server.TransactionResource row =>
        match Server.name_orig row with
        | EmptyString => Py.Returned None
        | account =>
            Py.bind (Server.tool_get_account_kpi db account (Some 1) (Some 200))
              (fun k =>
            Py.bind (Server.tool_detect_suspicious db account
                       (Some (200000 # 1)) (Some 10) (Some 10))
              (fun d =>
            Py.Returned
              (Some (build_insights (Some (kpi_json k))
                       (Some (detection_json d)) (Some (tx_json row))))))
        end
    | _ => Py.Returned None
    end).

(** *** Notions used to state the properties of the helpers *)

(** The threshold [suggest_detection_params] proposes, as a function of
    the three statistics it is computed from (lines 152 to 159). *)
Definition proposed_threshold (p95 avg_amt max_amt : Q) : Q :=
  let base := Py.max2 (Py.max2 p95 (avg_amt * (2 # 1))%Q) (50000 # 1) in
  let base := if Py.gt max_amt 0 then Py.min2 base max_amt else base in
  let min_amount := inject_Z (Py.int_of_float (base / (1000 # 1))%Q * 1000) in
  if Qle_bool min_amount 0 then 50000 # 1 else min_amount.

(** The window it proposes, as a function of the number of outgoing
    transactions (lines 162 to 167). *)
Definition proposed_window (nb_out : Z) : Z :=
  if 30 <=? nb_out then 5
  else if 10 <=? nb_out then 10
  else 20.

(** The outgoing rows of an account, whatever the step. *)
Definition sent_by (account : string) (db : Server.table) : list Server.Transaction :=
  filter (fun r => String.eqb (Server.name_orig r) account) db.

(** The suggestion computed for an account of a table. *)
Definition suggestion_for (db : Server.table) (account : string) : Suggestion :=
  match suggest_detection_params db account with
  | Py.Returned sug => sug
  | Py.Raised _ => mkSuggestion 0 0 0 0 0 0 0 0
  end.

(** The explanation the detection page gives when the detector found no
    match (lines 702 to 738). *)
Inductive diagnosis : Type :=
| NoRiskyOperation
| ThresholdAboveMaximum
| PatternOrWindow.

Definition why_no_match (db : Server.table) (name : string) (min_amount : Q)
  : diagnosis :=
  let stats := risky_out_stats db name in
  let nb_risky := nb_risky_out stats in
  let max_risky := max_risky_amount stats in
  if nb_risky =? 0 then NoRiskyOperation
  else if (Py.gt min_amount max_risky && Py.gt max_risky 0)%bool
       then ThresholdAboveMaximum
       else PatternOrWindow.

(** The three levels, in increasing order of severity. *)
Definition badge_level (badge : string) : Z :=
  if String.eqb badge "🟢 Faible" then 0
  else if String.eqb badge "🟠 Moyen" then 1
  else 2.

(** Number of triggered entries of a breakdown. *)
Definition nb_triggered (b : list Entry) : Z :=
  Py.len (filter triggered b).

(** The entry of a breakdown that carries a given rule name. *)
Definition entry_of (b : list Entry) (name : string) : option Entry :=
  find (fun e => String.eqb (rule e) name) b.

(** Sum of the [points] column of a breakdown. *)
Definition total_points (b : list Entry) : Z :=
  fold_right (fun e acc => points e + acc) 0 b.

(** The names of the seven rules, in the order of the calls to [add_rule]. *)
Definition rule_names : list string :=
  [ "Concentration des sorties"; "Montant moyen sortant élevé";
    "Au moins 1 match détecté"; "Plusieurs matchs (≥ 3)";
    "Fraude labellisée (dataset)"; "Déséquilibre (aucune entrée)";
    "Signal sur la transaction consultée" ]%string.

(** Invariant of the scoring state: the running score is the sum of the
    points shown so far, every untriggered entry shows no points, and no
    entry shows negative points. *)
Definition consistent (st : scoring_state) : Prop :=
  fst st = total_points (snd st)
  /\ Forall (fun e => triggered e = false -> points e = 0) (snd st)
  /\ Forall (fun e => 0 <= points e) (snd st).

(** The sub-total of the rule on the consulted transaction, as a sum of
    its three parts. *)
Definition tx_subtotal (t : Tx) (min_amount : Q) : Z :=
  (if tx_labelled_fraud t then 15 else 0)
  + (if tx_drained t then 10 else 0)
  + (if tx_large t min_amount then 10 else 0).

(** Points of a rule worth [pts] whose condition evaluates to [b]. *)
Definition award (b : bool) (pts : Z) : Z := if b then pts else 0.

(** [a] triggers no rule that [b] does not trigger: the flags of two
    breakdowns compared position by position. *)
Definition triggers_subset (a b : list Entry) : Prop :=
  Forall2 (fun x y : bool => x = true -> y = true)
    (map triggered a) (map triggered b).

(** The last entry of a breakdown. *)
Definition last_entry (b : list Entry) : option Entry :=
  nth_error b (List.length b - 1).

(** *** Inputs of the end-to-end scenarios *)

Definition scenario1_kpi : option Kpi :=
  Some {| kpi_out := Some {| nb_out := Some 1; total_out := Some (500000 # 1);
                             avg_out_amount := Some (500000 # 1);
                             fraud_out := Some 0 |};
          kpi_in := Some {| nb_in := Some 0; total_in := Some 0%Q |} |}.

Definition scenario1_detection : option Suspicious :=
  Some {| matches := Some []; min_amount := Some (200000 # 1);
          window_steps := Some 10 |}.

Definition sample_match (n : Z) : Server.Match :=
  Server.mkMatch n 1 "TRANSFER" (300000 # 1) "C100" "C200" false.

Definition scenario2_detection : option Suspicious :=
  Some {| matches := Some [sample_match 1; sample_match 2; sample_match 3;
                           sample_match 4];
          min_amount := Some (200000 # 1);
          window_steps := Some 10 |}.

Definition scenario4_tx : Tx :=
  {| tx_type := Some "TRANSFER"%string;
     tx_amount := Some (300000 # 1);
     tx_is_fraud := Some true;
     tx_oldbalance_org := Some (1000 # 1);
     tx_newbalance_org := Some 0%Q |}.

End App.

(** ** The [LIMIT] clause *)

Lemma limit_in_range {A : Type} (n : Z) (l : list A) :
  0 <= n <= Server.bigint_max ->
  Server.limit n l = Py.Returned (firstn (Z.to_nat n) l).
Proof.
  intros [H0 H1]. unfold Server.limit.
  destruct (Z.ltb_spec n 0); [lia|].
  destruct (Z.leb_spec (Py.len l) n) as [Hlen|Hlen]; [|reflexivity].
  destruct (Z.ltb_spec Server.bigint_max n); [lia|].
  rewrite firstn_all2; [reflexivity | unfold Py.len in Hlen; lia].
Qed.

Lemma limit_of_longer {A : Type} (n : Z) (l : list A) :
  0 <= n -> n < Py.len l ->
  Server.limit n l = Py.Returned (firstn (Z.to_nat n) l).
Proof.
  intros H0 H1. unfold Server.limit.
  destruct (Z.ltb_spec n 0); [lia|].
  destruct (Z.leb_spec (Py.len l) n); [lia | reflexivity].
Qed.

Lemma limit_returned {A : Type} (n : Z) (l rows : list A) :
  Server.limit n l = Py.Returned rows ->
  0 <= n /\ rows = firstn (Z.to_nat n) l.
Proof.
  unfold Server.limit.
  destruct (Z.ltb_spec n 0); [discriminate|].
  destruct (Z.leb_spec (Py.len l) n) as [Hlen|Hlen].
  - destruct (Server.bigint_max <? n); [discriminate|].
    intros [= <-]. split; [assumption|].
    rewrite firstn_all2; [reflexivity | unfold Py.len in Hlen; lia].
  - intros [= <-]. split; [assumption | reflexivity].
Qed.

(** ** Properties of the scoring engine *)

Section ScoringFacts.

Import App.

Variables (kpi : option Kpi) (suspicious : option Suspicious) (tx : option Tx).

Lemma score_build_insights :
  score (build_insights kpi suspicious tx)
  = Z.min (fst (all_rules kpi suspicious tx)) 100.
Proof.
  unfold build_insights.
  destruct (all_rules kpi suspicious tx) as [sc bd]; reflexivity.
Qed.

Lemma breakdown_build_insights :
  breakdown (build_insights kpi suspicious tx)
  = snd (all_rules kpi suspicious tx).
Proof.
  unfold build_insights.
  destruct (all_rules kpi suspicious tx) as [sc bd]; reflexivity.
Qed.

Lemma title_build_insights :
  title (build_insights kpi suspicious tx)
  = [Lit "Risque global: **";
     Lit (risk_label (score (build_insights kpi suspicious tx)));
     Lit "** (score "; Num (score (build_insights kpi suspicious tx));
     Lit "/100)"].
Proof.
  unfold build_insights.
  destruct (all_rules kpi suspicious tx) as [sc bd]; reflexivity.
Qed.

End ScoringFacts.

(** The two captured variables of [add_rule] evolve in step: a call adds
    one entry, and adds to the score what the entry shows. *)
Lemma add_rule_fst st r pts trig w :
  fst (App.add_rule st r pts trig w)
  = fst st + (if trig then pts else 0).
Proof. destruct st as [sc bd], trig; simpl; lia. Qed.

Lemma add_rule_snd st r pts trig w :
  snd (App.add_rule st r pts trig w)
  = snd st ++ [App.mkEntry r (if trig then pts else 0) trig w].
Proof. destruct st as [sc bd]; reflexivity. Qed.

Lemma total_points_app b c :
  App.total_points (b ++ c) = App.total_points b + App.total_points c.
Proof.
  induction b as [|e b IH]; simpl; [reflexivity|].
  rewrite IH; lia.
Qed.

Lemma consistent_init : App.consistent (0, []).
Proof. repeat split; constructor. Qed.

Lemma add_rule_consistent st r pts trig w :
  0 <= pts -> App.consistent st -> App.consistent (App.add_rule st r pts trig w).
Proof.
  intros Hpts (Hsum & Hzero & Hpos).
  unfold App.consistent.
  rewrite add_rule_fst, add_rule_snd, total_points_app, Hsum.
  split; [simpl; lia|].
  split; apply Forall_app; split; trivial; constructor; simpl; trivial.
  - intros ->; reflexivity.
  - destruct trig; lia.
Qed.

Lemma tx_points_range tx m : 0 <= App.tx_points tx m <= 35.
Proof.
  unfold App.tx_points, App.tx_signal.
  destruct tx as [t|]; simpl; [|lia].
  destruct (App.tx_labelled_fraud t), (App.tx_drained t), (App.tx_large t m);
    simpl; lia.
Qed.

Lemma account_rules_consistent kpi suspicious :
  App.consistent (App.account_rules kpi suspicious).
Proof.
  unfold App.account_rules.
  repeat (apply add_rule_consistent; [lia|]).
  apply consistent_init.
Qed.

Lemma all_rules_consistent kpi suspicious tx :
  App.consistent (App.all_rules kpi suspicious tx).
Proof.
  unfold App.all_rules.
  apply add_rule_consistent.
  - pose proof (tx_points_range tx (App.min_amount_of suspicious)); lia.
  - apply account_rules_consistent.
Qed.

Lemma total_points_nonneg b :
  Forall (fun e => 0 <= App.points e) b -> 0 <= App.total_points b.
Proof.
  induction 1 as [|e b He _ IH]; simpl; lia.
Qed.

(** C1. Whatever the KPI record, the detection result and the transaction
    (given or not), the score returned by [build_insights] is an integer
    between 0 and 100: points are added rule after rule and the sum is cut
    at 100. *)
Theorem score_between_0_and_100 kpi suspicious tx :
  0 <= App.score (App.build_insights kpi suspicious tx) <= 100
  /\ App.score (App.build_insights kpi suspicious tx)
     = Z.min (App.total_points (App.breakdown (App.build_insights kpi suspicious tx))) 100.
Proof.
  rewrite score_build_insights, breakdown_build_insights.
  destruct (all_rules_consistent kpi suspicious tx) as (Hsum & _ & Hpos).
  apply total_points_nonneg in Hpos.
  rewrite Hsum. lia.
Qed.

Lemma last_entry_snoc b e : App.last_entry (b ++ [e]) = Some e.
Proof.
  unfold App.last_entry.
  rewrite length_app, Nat.add_sub; simpl.
  rewrite nth_error_app2, Nat.sub_diag; [reflexivity | apply Nat.le_refl].
Qed.

Lemma rules_of_all_rules kpi suspicious tx :
  map App.rule (snd (App.all_rules kpi suspicious tx)) = App.rule_names.
Proof.
  unfold App.all_rules, App.account_rules.
  repeat rewrite add_rule_snd.
  reflexivity.
Qed.

(** C2 (as the code has it). The breakdown always has seven entries, one per
    rule R1 to R7 in this order, whether or not a transaction is given;
    without a transaction the entry of R7 is present, untriggered, with 0
    points. *)
Theorem breakdown_always_seven_entries kpi suspicious tx :
  map App.rule (App.breakdown (App.build_insights kpi suspicious tx))
  = App.rule_names
  /\ List.length (App.breakdown (App.build_insights kpi suspicious tx)) = 7%nat
  /\ exists e,
       App.last_entry (App.breakdown (App.build_insights kpi suspicious tx)) = Some e
       /\ App.rule e = "Signal sur la transaction consultée"%string
       /\ (tx = None -> App.triggered e = false /\ App.points e = 0).
Proof.
  rewrite breakdown_build_insights.
  split; [apply rules_of_all_rules|].
  split.
  - rewrite <- (length_map App.rule), rules_of_all_rules; reflexivity.
  - unfold App.all_rules.
    rewrite add_rule_snd, last_entry_snoc.
    eexists; split; [reflexivity|].
    split; [reflexivity|].
    intros ->; split; reflexivity.
Qed.

(** C2, counterexample. On scenario 1, with no transaction, the breakdown
    has seven entries and not six, and its last entry is the one of R7. *)
Lemma breakdown_without_tx_has_r7 :
  List.length (App.breakdown
                 (App.build_insights App.scenario1_kpi App.scenario1_detection None))
  <> 6%nat
  /\ option_map App.rule
       (App.last_entry
          (App.breakdown
             (App.build_insights App.scenario1_kpi App.scenario1_detection None)))
     = Some "Signal sur la transaction consultée"%string.
Proof.
  split; [vm_compute; discriminate | vm_compute; reflexivity].
Qed.

(** C3. Scenario 1 (one outgoing transaction of 500000, nothing incoming,
    threshold 200000, no match, no transaction): exactly R1 (25), R2 (20)
    and R6 (10) fire, the score is 55 and the title carries the middle
    label, [Modéré]. *)
Theorem scenario1_scores_55 :
  let ins := App.build_insights App.scenario1_kpi App.scenario1_detection None in
  map (fun e => (App.rule e, App.points e))
      (filter App.triggered (App.breakdown ins))
  = [ ("Concentration des sorties"%string, 25);
      ("Montant moyen sortant élevé"%string, 20);
      ("Déséquilibre (aucune entrée)"%string, 10) ]
  /\ App.score ins = 55
  /\ App.risk_label (App.score ins) = "Modéré"%string
  /\ App.title ins
     = [App.Lit "Risque global: **"; App.Lit "Modéré"; App.Lit "** (score ";
        App.Num 55; App.Lit "/100)"].
Proof.
  vm_compute. repeat split; reflexivity.
Qed.

Lemma tx_points_subtotal t m :
  App.tx_points (Some t) m = App.tx_subtotal t m.
Proof.
  unfold App.tx_points, App.tx_signal, App.tx_subtotal.
  destruct (App.tx_labelled_fraud t), (App.tx_drained t), (App.tx_large t m);
    reflexivity.
Qed.

(** C4. With a transaction, what R7 adds to the running score is the sum of
    its three parts (15 for the fraud label, 10 for a drained balance on a
    TRANSFER or CASH_OUT, 10 for an amount at or above the threshold) cut at
    20, and this is what its entry shows; when the three conditions hold
    the sum is 35 and R7 adds exactly 20. *)
Theorem tx_signal_capped_at_20 kpi suspicious t :
  let m := App.min_amount_of suspicious in
  let sub := App.tx_subtotal t m in
  App.tx_points (Some t) m = sub
  /\ fst (App.all_rules kpi suspicious (Some t))
     = fst (App.account_rules kpi suspicious) + Z.min sub 20
  /\ option_map App.points
       (App.last_entry (App.breakdown (App.build_insights kpi suspicious (Some t))))
     = Some (Z.min sub 20)
  /\ (App.tx_labelled_fraud t = true -> App.tx_drained t = true ->
      App.tx_large t m = true ->
      sub = 35
      /\ fst (App.all_rules kpi suspicious (Some t))
         = fst (App.account_rules kpi suspicious) + 20).
Proof.
  intros m sub.
  assert (Hsub : App.tx_points (Some t) m = sub) by apply tx_points_subtotal.
  assert (Hrange : 0 <= sub <= 35).
  { rewrite <- Hsub. apply tx_points_range. }
  assert (Hfst : fst (App.all_rules kpi suspicious (Some t))
                 = fst (App.account_rules kpi suspicious) + Z.min sub 20).
  { unfold App.all_rules. rewrite add_rule_fst. fold m. rewrite Hsub.
    simpl App.tx_truthy. simpl andb.
    destruct (0 <? sub) eqn:E; [reflexivity|].
    apply Z.ltb_ge in E. lia. }
  split; [exact Hsub|].
  split; [exact Hfst|].
  split.
  - rewrite breakdown_build_insights.
    unfold App.all_rules.
    rewrite add_rule_snd, last_entry_snoc. fold m. rewrite Hsub.
    simpl.
    destruct (0 <? sub) eqn:E; [reflexivity|].
    apply Z.ltb_ge in E. f_equal. lia.
  - intros Hf Hd Hl.
    assert (H35 : sub = 35).
    { unfold sub, App.tx_subtotal. rewrite Hf, Hd, Hl. reflexivity. }
    split; [exact H35|].
    rewrite Hfst, H35. reflexivity.
Qed.

(** C4, scenario 4: a fraudulent TRANSFER of 300000 that empties a balance
    of 1000, against the threshold 200000. *)
Lemma scenario4_adds_20 :
  App.tx_subtotal App.scenario4_tx (App.min_amount_of App.scenario1_detection) = 35
  /\ fst (App.all_rules App.scenario1_kpi App.scenario1_detection
            (Some App.scenario4_tx))
     = fst (App.account_rules App.scenario1_kpi App.scenario1_detection) + 20.
Proof.
  apply (tx_signal_capped_at_20 App.scenario1_kpi App.scenario1_detection
           App.scenario4_tx); reflexivity.
Defined.

Lemma triggered_of_all_rules kpi suspicious tx :
  map App.triggered (snd (App.all_rules kpi suspicious tx))
  = [ App.trig_concentration kpi suspicious;
      App.trig_high_average kpi suspicious;
      App.trig_one_match suspicious;
      App.trig_many_matches suspicious;
      App.trig_labelled_fraud kpi;
      App.trig_imbalance kpi;
      (App.tx_truthy tx
       && (0 <? App.tx_points tx (App.min_amount_of suspicious)))%bool ].
Proof.
  unfold App.all_rules, App.account_rules.
  repeat rewrite add_rule_snd.
  reflexivity.
Qed.

Lemma tx_award tx m :
  App.award (App.tx_truthy tx && (0 <? App.tx_points tx m))%bool
    (Z.min (App.tx_points tx m) 20)
  = Z.min (App.tx_points tx m) 20.
Proof.
  pose proof (tx_points_range tx m) as Hr.
  unfold App.award.
  destruct tx as [t|]; simpl App.tx_truthy; simpl andb.
  - destruct (0 <? App.tx_points (Some t) m) eqn:E; [reflexivity|].
    apply Z.ltb_ge in E. lia.
  - reflexivity.
Qed.

(** The score before the cut at 100, rule by rule. *)
Lemma raw_score kpi suspicious tx :
  fst (App.all_rules kpi suspicious tx)
  = App.award (App.trig_concentration kpi suspicious) 25
    + App.award (App.trig_high_average kpi suspicious) 20
    + App.award (App.trig_one_match suspicious) 25
    + App.award (App.trig_many_matches suspicious) 10
    + App.award (App.trig_labelled_fraud kpi) 25
    + App.award (App.trig_imbalance kpi) 10
    + Z.min (App.tx_points tx (App.min_amount_of suspicious)) 20.
Proof.
  rewrite <- (tx_award tx (App.min_amount_of suspicious)).
  unfold App.all_rules, App.account_rules.
  repeat rewrite add_rule_fst.
  reflexivity.
Qed.

Lemma award_mono (a b : bool) pts :
  0 <= pts -> (a = true -> b = true) -> App.award a pts <= App.award b pts.
Proof.
  intros Hp Hab. unfold App.award.
  destruct a; [rewrite (Hab eq_refl)|destruct b]; lia.
Qed.

(** C7. If every rule triggered on a first input is triggered on a second
    one, and the sub-total of R7 on the second is at least that on the
    first, then the second score is at least the first. *)
Theorem score_monotone kpi1 suspicious1 tx1 kpi2 suspicious2 tx2 :
  App.triggers_subset
    (App.breakdown (App.build_insights kpi1 suspicious1 tx1))
    (App.breakdown (App.build_insights kpi2 suspicious2 tx2)) ->
  App.tx_points tx1 (App.min_amount_of suspicious1)
  <= App.tx_points tx2 (App.min_amount_of suspicious2) ->
  App.score (App.build_insights kpi1 suspicious1 tx1)
  <= App.score (App.build_insights kpi2 suspicious2 tx2).
Proof.
  unfold App.triggers_subset.
  rewrite !breakdown_build_insights, !triggered_of_all_rules.
  rewrite !score_build_insights, !raw_score.
  intros Hsub Htx.
  repeat match goal with
         | H : Forall2 _ (_ :: _) (_ :: _) |- _ =>
             apply Forall2_cons_iff in H; destruct H as [? H]
         end.
  repeat match goal with
         | H : ?a = true -> ?b = true |- _ =>
             lazymatch goal with
             | _ : App.award a ?p <= App.award b ?p |- _ => fail
             | _ => idtac
             end;
             let p := match goal with
                      | |- context [App.award a ?p] => p
                      end in
             assert (App.award a p <= App.award b p)
               by (apply award_mono; [lia | exact H]);
             clear H
         end.
  lia.
Qed.

(** C7, witness: scenario 1 against the same account with four matches. *)
Lemma score_monotone_scenarios :
  App.score (App.build_insights App.scenario1_kpi App.scenario1_detection None)
  <= App.score (App.build_insights App.scenario1_kpi App.scenario2_detection None).
Proof.
  apply score_monotone.
  - vm_compute. repeat constructor; discriminate.
  - vm_compute. discriminate.
Defined.

(** C10. The result is consistent with itself: an entry that is not
    triggered shows 0 points, and the score is the smaller of 100 and the
    sum of the points of the entries. *)
Theorem breakdown_consistent_with_score kpi suspicious tx :
  let ins := App.build_insights kpi suspicious tx in
  Forall (fun e => App.triggered e = false -> App.points e = 0) (App.breakdown ins)
  /\ App.score ins = Z.min 100 (App.total_points (App.breakdown ins)).
Proof.
  intros ins. unfold ins.
  rewrite score_build_insights, breakdown_build_insights.
  destruct (all_rules_consistent kpi suspicious tx) as (Hsum & Hzero & _).
  split; [exact Hzero|].
  rewrite Hsum. apply Z.min_comm.
Qed.

(** ** Properties of the server *)

(** *** The KPI aggregator *)

(** C9. For every table, account and step range the aggregator returns
    (no division error is raised), and each average is the total divided
    by the count when the count is positive and exactly 0 when the count
    is 0. *)
Theorem kpi_averages_guarded db name step_from step_to :
  exists k,
    Server.tool_get_account_kpi db name step_from step_to = Py.Returned k
    /\ (Server.nb_out (Server.kpi_out k) = 0 ->
        Server.avg_out_amount (Server.kpi_out k) = 0%Q)
    /\ (0 < Server.nb_out (Server.kpi_out k) ->
        Server.avg_out_amount (Server.kpi_out k)
        = (Server.total_out (Server.kpi_out k)
           / inject_Z (Server.nb_out (Server.kpi_out k)))%Q)
    /\ (Server.nb_in (Server.kpi_in k) = 0 ->
        Server.avg_in_amount (Server.kpi_in k) = 0%Q)
    /\ (0 < Server.nb_in (Server.kpi_in k) ->
        Server.avg_in_amount (Server.kpi_in k)
        = (Server.total_in (Server.kpi_in k)
           / inject_Z (Server.nb_in (Server.kpi_in k)))%Q).
Proof.
  unfold Server.tool_get_account_kpi, Server.truediv.
  rewrite limit_in_range by (unfold Server.bigint_max; lia).
  cbv beta iota. unfold Py.bind at 1.
  set (outgoing := fun r : Server.Transaction => _).
  set (incoming := fun r : Server.Transaction => _).
  generalize (Server.sql_count outgoing db) (Server.sql_count incoming db).
  intros no ni.
  destruct (Z.eqb_spec no 0) as [Eo|Eo]; destruct (Z.eqb_spec ni 0) as [Ei|Ei];
    cbn [Py.bind]; eexists; (split; [reflexivity|]);
    cbn [Server.kpi_out Server.kpi_in Server.nb_out Server.nb_in
         Server.avg_out_amount Server.avg_in_amount Server.total_out
         Server.total_in];
    repeat split; intros; try reflexivity; lia.
Qed.

(** *** The resource reader *)


Lemma find_none_of_existsb {A : Type} (p : A -> bool) (l : list A) :
  existsb p l = false -> find p l = None.
Proof.
  induction l as [|x l IH]; simpl; [reflexivity|].
  intros H. apply orb_false_elim in H as [Hx Hl].
  rewrite Hx. apply IH, Hl.
Qed.

Lemma prefix_empty s : String.prefix EmptyString s = true.
Proof. destruct s; reflexivity. Qed.




(** *** The detector *)

Section OrderBy.

Context {A : Type} (before : A -> A -> bool).

Hypothesis before_total : forall x y, before x y = true \/ before y x = true.
Hypothesis before_trans :
  forall x y z, before x y = true -> before y z = true -> before x z = true.

Lemma insert_by_perm x l : Permutation (Server.insert_by before x l) (x :: l).
Proof.
  induction l as [|y l IH]; simpl; [reflexivity|].
  destruct (before x y); [reflexivity|].
  rewrite IH. apply perm_swap.
Qed.

Lemma order_by_perm l : Permutation (Server.order_by before l) l.
Proof.
  induction l as [|x l IH]; simpl; [reflexivity|].
  rewrite insert_by_perm. constructor. exact IH.
Qed.

Lemma insert_by_sorted x l :
  StronglySorted (fun a b => before a b = true) l ->
  StronglySorted (fun a b => before a b = true) (Server.insert_by before x l).
Proof.
  induction 1 as [|y l Hl IH Hy]; simpl.
  - repeat constructor.
  - destruct (before x y) eqn:E.
    + constructor; [constructor; assumption|].
      constructor; [exact E|].
      eapply Forall_impl; [|exact Hy].
      intros z Hz. eapply before_trans; eassumption.
    + constructor; [exact IH|].
      eapply Permutation_Forall; [symmetry; apply insert_by_perm|].
      constructor; [|exact Hy].
      destruct (before_total x y) as [H|H]; congruence.
Qed.

Lemma order_by_sorted l :
  StronglySorted (fun a b => before a b = true) (Server.order_by before l).
Proof.
  induction l as [|x l IH]; simpl; [constructor|].
  apply insert_by_sorted, IH.
Qed.

End OrderBy.

(** A sorted list cut in two: the first part is sorted and each of its
    elements is before each element of the second part. *)
Lemma sorted_app_inv {A : Type} (R : A -> A -> Prop) (a b : list A) :
  StronglySorted R (a ++ b) ->
  StronglySorted R a /\ (forall x y, In x a -> In y b -> R x y).
Proof.
  induction a as [|u a IH]; simpl; intros H.
  - split; [constructor | intros x y []].
  - apply StronglySorted_inv in H as [Hs Hu].
    destruct (IH Hs) as [Ha Hab].
    rewrite Forall_forall in Hu.
    split.
    + constructor; [exact Ha|].
      rewrite Forall_forall. intros y Hy. apply Hu, in_or_app. left; exact Hy.
    + intros x y [<-|Hx] Hy.
      * apply Hu, in_or_app. right; exact Hy.
      * apply Hab; assumption.
Qed.

Lemma sorted_map {A B : Type} (f : A -> B) (S : A -> A -> Prop)
    (R : B -> B -> Prop) (l : list A) :
  (forall x y, S x y -> R (f x) (f y)) ->
  StronglySorted S l -> StronglySorted R (map f l).
Proof.
  intros HSR.
  induction 1 as [|x l Hl IH Hx]; simpl; constructor; [exact IH|].
  rewrite Forall_forall in *. intros y Hy.
  apply in_map_iff in Hy as (z & <- & Hz). apply HSR, Hx, Hz.
Qed.

Lemma amount_desc_total x y :
  Server.amount_desc x y = true \/ Server.amount_desc y x = true.
Proof.
  unfold Server.amount_desc. rewrite !Qle_bool_iff.
  destruct (Qlt_le_dec (Server.amount x) (Server.amount y)) as [H|H].
  - right. apply Qlt_le_weak, H.
  - left. exact H.
Qed.

Lemma amount_desc_trans x y z :
  Server.amount_desc x y = true -> Server.amount_desc y z = true ->
  Server.amount_desc x z = true.
Proof.
  unfold Server.amount_desc. rewrite !Qle_bool_iff.
  intros Hxy Hyz. eapply Qle_trans; eassumption.
Qed.

(** C5. With [max_rows >= 1] and more candidates than [max_rows], the
    detector returns exactly [max_rows] matches, in descending order of
    amount; they are candidates, and no candidate left out has a larger
    amount than a match returned. *)
Theorem detector_returns_top_max_rows db name min_amount window_steps max_rows :
  let threshold := Py.if_not_none min_amount (200000 # 1) in
  let n := Py.if_not_none max_rows 10 in
  let candidates := filter (Server.candidate name threshold) db in
  1 <= n ->
  n < Py.len candidates ->
  exists d rest,
    Server.tool_detect_suspicious db name min_amount window_steps max_rows
    = Py.Returned d
    /\ Py.len (Server.matches d) = n
    /\ StronglySorted Server.amount_ge (Server.matches d)
    /\ Permutation (map Server.match_of_row candidates) (Server.matches d ++ rest)
    /\ (forall m c, In m (Server.matches d) -> In c rest -> Server.amount_ge m c).
Proof.
  intros threshold n candidates Hn Hlen.
  set (sorted := Server.order_by Server.amount_desc candidates).
  assert (Hperm : Permutation sorted candidates)
    by apply order_by_perm.
  assert (Hsorted : StronglySorted (fun a b => Server.amount_desc a b = true) sorted)
    by (apply order_by_sorted; [apply amount_desc_total | apply amount_desc_trans]).
  rewrite <- (firstn_skipn (Z.to_nat n) sorted) in Hsorted.
  apply sorted_app_inv in Hsorted as [Hfirst Hcut].
  exists {| Server.det_name := name;
            Server.min_amount := threshold;
            Server.window_steps := Py.if_not_none window_steps 10;
            Server.max_rows := n;
            Server.matches := map Server.match_of_row (firstn (Z.to_nat n) sorted);
            Server.det_note := "Règles simples de démo (pas de ML)." |}.
  exists (map Server.match_of_row (skipn (Z.to_nat n) sorted)).
  cbn [Server.matches].
  split; [|split; [|split; [|split]]].
  - unfold Server.tool_detect_suspicious.
    fold threshold n candidates sorted.
    rewrite limit_of_longer; [reflexivity | lia |].
    unfold sorted, Py.len in *.
    rewrite (Permutation_length (order_by_perm _ _)). exact Hlen.
  - unfold Py.len in *.
    rewrite length_map, length_firstn, <- (Permutation_length Hperm) in *.
    lia.
  - eapply sorted_map; [|exact Hfirst]; cbn beta.
    intros a b H. unfold Server.amount_desc in H.
    apply Qle_bool_iff in H. exact H.
  - rewrite <- map_app, firstn_skipn.
    apply Permutation_map. symmetry. exact Hperm.
  - intros m c Hm Hc.
    apply in_map_iff in Hm as (a & <- & Ha).
    apply in_map_iff in Hc as (b & <- & Hb).
    specialize (Hcut a b Ha Hb). unfold Server.amount_desc in Hcut.
    apply Qle_bool_iff in Hcut. exact Hcut.
Qed.

(** C5, witness: account C100 of the sample table has four candidates at
    the default threshold; two rows are asked for. *)
Lemma detector_top_two_of_sample :
  exists d rest,
    Server.tool_detect_suspicious Server.sample_db "C100" None None (Some 2)
    = Py.Returned d
    /\ Py.len (Server.matches d) = 2
    /\ StronglySorted Server.amount_ge (Server.matches d)
    /\ Permutation
         (map Server.match_of_row
            (filter (Server.candidate "C100" (200000 # 1)) Server.sample_db))
         (Server.matches d ++ rest)
    /\ (forall m c, In m (Server.matches d) -> In c rest -> Server.amount_ge m c).
Proof.
  apply (detector_returns_top_max_rows Server.sample_db "C100" None None (Some 2));
    vm_compute; [discriminate | reflexivity].
Defined.


(** ** Further properties of the server *)

(** *** The resource reader, continued *)

Lemma prefix_split p s :
  String.prefix p s = true -> exists r, s = (p ++ r)%string.
Proof.
  revert s. induction p as [|c p IH]; intros s H.
  - exists s; reflexivity.
  - destruct s as [|d s]; simpl in H; [discriminate|].
    destruct (ascii_dec c d) as [<-|]; [|discriminate].
    destruct (IH s H) as [r ->]. exists r; reflexivity.
Qed.




(** X2. For a URI without NUL character, the only exception
    [resource_read] lets out is the [ValueError] of [int] on the id of a
    transaction URI: an account URI and a URI of another kind do not
    raise, and the split of the URI never fails. *)
Theorem resource_read_raises_only_on_bad_id db uri e :
  Server.no_nul uri = true ->
  Server.resource_read db uri = Py.Raised e ->
  e = Py.ValueError
  /\ String.prefix "account/" uri = false
  /\ exists tail,
       uri = ("transaction/" ++ tail)%string
       /\ Server.py_int tail = Py.Raised Py.ValueError.
Proof.
  intros _. unfold Server.resource_read.
  destruct (String.prefix "account/" uri) eqn:Ea.
  - apply prefix_split in Ea as [r ->].
    unfold Server.after_slash. cbn. discriminate.
  - destruct (String.prefix "transaction/" uri) eqn:Et; [|discriminate].
    apply prefix_split in Et as [r ->].
    unfold Server.after_slash. cbn.
    unfold Server.py_int.
    destruct (match Server.strip r with
              | String "-" r0 => _
              | String "+" r0 => _
              | _ => _
              end) as [n|] eqn:Ep; cbn.
    + destruct (find _ db); discriminate.
    + intros [= <-]. split; [reflexivity|]. split; [reflexivity|].
      exists r. split; [reflexivity|].
      unfold Server.py_int. rewrite Ep. reflexivity.
Qed.

Lemma resource_read_bad_id_sample :
  Py.ValueError = Py.ValueError
  /\ String.prefix "account/" "transaction/abc" = false
  /\ exists tail,
       "transaction/abc"%string = ("transaction/" ++ tail)%string
       /\ Server.py_int tail = Py.Raised Py.ValueError.
Proof.
  apply (resource_read_raises_only_on_bad_id Server.sample_db); reflexivity.
Defined.

(** *** The KPI aggregator, continued *)

(** What [tool_get_account_kpi] returns, field by field. *)
Lemma tool_get_account_kpi_fields db name step_from step_to :
  let a := Py.if_not_none step_from 1 in
  let b := Py.if_not_none step_to 200 in
  exists k,
    Server.tool_get_account_kpi db name step_from step_to = Py.Returned k
    /\ Server.kpi_name k = name
    /\ Server.kpi_step_from k = a
    /\ Server.kpi_step_to k = b
    /\ Server.nb_out (Server.kpi_out k) = Server.sql_count (Server.outgoing name a b) db
    /\ Server.total_out (Server.kpi_out k)
       = Server.coalesce (Server.sql_sum_amount (Server.outgoing name a b) db) 0
    /\ Server.fraud_out (Server.kpi_out k)
       = Server.sql_count (Server.outgoing_fraud name a b) db
    /\ Server.nb_in (Server.kpi_in k) = Server.sql_count (Server.incoming name a b) db
    /\ Server.total_in (Server.kpi_in k)
       = Server.coalesce (Server.sql_sum_amount (Server.incoming name a b) db) 0
    /\ Server.top_out_types k
       = firstn 5 (Server.order_by (fun g h : string * Z => snd h <=? snd g)
                     (Server.group_by_type (filter (Server.outgoing name a b) db)))
    /\ Server.avg_out_amount (Server.kpi_out k)
       = (if Server.nb_out (Server.kpi_out k) =? 0 then 0
          else Server.total_out (Server.kpi_out k)
               / inject_Z (Server.nb_out (Server.kpi_out k)))%Q
    /\ Server.avg_in_amount (Server.kpi_in k)
       = (if Server.nb_in (Server.kpi_in k) =? 0 then 0
          else Server.total_in (Server.kpi_in k)
               / inject_Z (Server.nb_in (Server.kpi_in k)))%Q.
Proof.
  intros a b.
  unfold Server.tool_get_account_kpi, Server.truediv.
  rewrite limit_in_range by (unfold Server.bigint_max; lia).
  fold a b. cbv beta iota. unfold Py.bind at 1.
  change (fun r : Server.Transaction =>
            (String.eqb (Server.name_orig r) name
             && Server.between (Server.step r) a b)%bool)
    with (Server.outgoing name a b).
  change (fun r : Server.Transaction =>
            (String.eqb (Server.name_dest r) name
             && Server.between (Server.step r) a b)%bool)
    with (Server.incoming name a b).
  change (fun r : Server.Transaction =>
            (String.eqb (Server.name_orig r) name && Server.is_fraud r
             && Server.between (Server.step r) a b)%bool)
    with (Server.outgoing_fraud name a b).
  destruct (Server.sql_count (Server.outgoing name a b) db =? 0) eqn:Eo;
    destruct (Server.sql_count (Server.incoming name a b) db =? 0) eqn:Ei;
    cbn [Py.bind]; eexists; repeat split;
    cbn [Server.kpi_out Server.kpi_in Server.nb_out Server.nb_in
         Server.avg_out_amount Server.avg_in_amount Server.total_out
         Server.total_in];
    rewrite ?Eo, ?Ei; reflexivity.
Qed.

Lemma filter_none {A : Type} (p : A -> bool) (l : list A) :
  (forall x, In x l -> p x = false) -> filter p l = [].
Proof.
  induction l as [|x l IH]; simpl; intros H; [reflexivity|].
  rewrite (H x (or_introl eq_refl)). apply IH. intros y Hy. apply H. right; exact Hy.
Qed.

Lemma filter_length_impl {A : Type} (p q : A -> bool) (l : list A) :
  (forall x, In x l -> p x = true -> q x = true) ->
  (List.length (filter p l) <= List.length (filter q l))%nat.
Proof.
  induction l as [|x l IH]; simpl; intros H; [apply Nat.le_refl|].
  assert (IH' : (List.length (filter p l) <= List.length (filter q l))%nat).
  { apply IH. intros y Hy. apply H. right; exact Hy. }
  destruct (p x) eqn:Ep.
  - rewrite (H x (or_introl eq_refl) Ep). simpl. apply le_n_S, IH'.
  - destruct (q x); simpl; [apply Nat.le_le_succ_r|]; exact IH'.
Qed.

(** X3. When every row of the table has its step in the range asked for,
    the KPI aggregator and the account resource report the same counts and
    totals for the account. *)
Theorem kpi_agrees_with_account_resource db name step_from step_to :
  (forall r, In r db ->
     Py.if_not_none step_from 1 <= Server.step r <= Py.if_not_none step_to 200) ->
  exists k,
    Server.tool_get_account_kpi db name step_from step_to = Py.Returned k
    /\ Server.resource_read db ("account/" ++ name)
       = Py.Returned
           (Server.AccountResource name
              (Server.nb_out (Server.kpi_out k))
              (Server.total_out (Server.kpi_out k))
              (Server.nb_in (Server.kpi_in k))
              (Server.total_in (Server.kpi_in k))
              (Server.fraud_out (Server.kpi_out k))).
Proof.
  intros Hrange.
  destruct (tool_get_account_kpi_fields db name step_from step_to)
    as (k & Hk & _ & _ & _ & Hno & Hto & Hfo & Hni & Hti & _ & _ & _).
  exists k. split; [exact Hk|].
  rewrite Hno, Hto, Hfo, Hni, Hti.
  unfold Server.resource_read, Server.after_slash. cbn.
  rewrite prefix_empty.
  unfold Server.sql_count, Server.sql_sum_amount.
  assert (Hb : forall r, In r db ->
            Server.between (Server.step r) (Py.if_not_none step_from 1)
              (Py.if_not_none step_to 200) = true).
  { intros r Hr. unfold Server.between.
    destruct (Hrange r Hr) as [H1 H2].
    apply Z.leb_le in H1, H2. rewrite H1, H2. reflexivity. }
  rewrite (filter_ext_in (Server.outgoing name _ _)
             (fun r => String.eqb (Server.name_orig r) name) db).
  2:{ intros r Hr. unfold Server.outgoing. rewrite (Hb r Hr). apply andb_true_r. }
  rewrite (filter_ext_in (Server.incoming name _ _)
             (fun r => String.eqb (Server.name_dest r) name) db).
  2:{ intros r Hr. unfold Server.incoming. rewrite (Hb r Hr). apply andb_true_r. }
  rewrite (filter_ext_in (Server.outgoing_fraud name _ _)
             (fun r => (String.eqb (Server.name_orig r) name
                        && Server.is_fraud r)%bool) db).
  2:{ intros r Hr. unfold Server.outgoing_fraud. rewrite (Hb r Hr).
      apply andb_true_r. }
  reflexivity.
Qed.

Lemma kpi_agrees_with_account_resource_sample :
  exists k,
    Server.tool_get_account_kpi Server.sample_db "C100" None (Some 250)
    = Py.Returned k
    /\ Server.resource_read Server.sample_db "account/C100"
       = Py.Returned
           (Server.AccountResource "C100"
              (Server.nb_out (Server.kpi_out k))
              (Server.total_out (Server.kpi_out k))
              (Server.nb_in (Server.kpi_in k))
              (Server.total_in (Server.kpi_in k))
              (Server.fraud_out (Server.kpi_out k))).
Proof.
  apply (kpi_agrees_with_account_resource Server.sample_db "C100" None (Some 250)).
  intros r Hr. simpl in Hr.
  repeat (destruct Hr as [<-|Hr]; [simpl; lia|]).
  destruct Hr.
Defined.



(** X5. The counts of a KPI result are ordered as they should be: the
    number of outgoing transactions labelled as fraud is between 0 and the
    number of outgoing transactions, and neither the outgoing nor the
    incoming count exceeds the number of rows of the table. *)
Theorem kpi_counts_bounded db name step_from step_to :
  exists k,
    Server.tool_get_account_kpi db name step_from step_to = Py.Returned k
    /\ 0 <= Server.fraud_out (Server.kpi_out k) <= Server.nb_out (Server.kpi_out k)
    /\ Server.nb_out (Server.kpi_out k) <= Py.len db
    /\ 0 <= Server.nb_in (Server.kpi_in k) <= Py.len db.
Proof.
  destruct (tool_get_account_kpi_fields db name step_from step_to)
    as (k & Hk & _ & _ & _ & Hno & _ & Hfo & Hni & _ & _ & _ & _).
  exists k. split; [exact Hk|].
  rewrite Hno, Hfo, Hni. unfold Server.sql_count, Py.len.
  pose proof (filter_length_impl
                (Server.outgoing_fraud name (Py.if_not_none step_from 1)
                   (Py.if_not_none step_to 200))
                (Server.outgoing name (Py.if_not_none step_from 1)
                   (Py.if_not_none step_to 200)) db) as Hfr.
  pose proof (filter_length_le
                (Server.outgoing name (Py.if_not_none step_from 1)
                   (Py.if_not_none step_to 200)) db) as Hout.
  pose proof (filter_length_le
                (Server.incoming name (Py.if_not_none step_from 1)
                   (Py.if_not_none step_to 200)) db) as Hin.
  assert (Himp : forall x, In x db ->
            Server.outgoing_fraud name (Py.if_not_none step_from 1)
              (Py.if_not_none step_to 200) x = true ->
            Server.outgoing name (Py.if_not_none step_from 1)
              (Py.if_not_none step_to 200) x = true).
  { intros x _. unfold Server.outgoing_fraud, Server.outgoing.
    destruct (String.eqb (Server.name_orig x) name), (Server.is_fraud x);
      simpl; auto; discriminate. }
  specialize (Hfr Himp). lia.
Qed.

Lemma sum_amounts_nonneg (l : list Q) (acc : Q) :
  Forall (fun q => 0 <= q)%Q l -> (0 <= acc)%Q -> (0 <= fold_left Qplus l acc)%Q.
Proof.
  intros H. revert acc.
  induction H as [|q l Hq _ IH]; simpl; intros acc Hacc; [exact Hacc|].
  apply IH.
  setoid_replace 0%Q with (0 + 0)%Q by reflexivity.
  apply Qplus_le_compat; assumption.
Qed.

Lemma sql_sum_nonneg (p : Server.Transaction -> bool) db :
  (forall r, In r db -> (0 <= Server.amount r)%Q) ->
  (0 <= Server.coalesce (Server.sql_sum_amount p db) 0)%Q.
Proof.
  intros Hpos. unfold Server.sql_sum_amount.
  destruct (filter p db) as [|x l] eqn:E; [apply Qle_refl|].
  cbn [Server.coalesce]. apply sum_amounts_nonneg; [|apply Qle_refl].
  rewrite Forall_forall. intros q Hq.
  apply in_map_iff in Hq as (r & <- & Hr).
  apply Hpos. rewrite <- E in Hr. apply filter_In in Hr. tauto.
Qed.

Lemma guarded_average_nonneg (total : Q) (n : Z) :
  (0 <= total)%Q -> 0 <= n ->
  (0 <= (if n =? 0 then 0 else total / inject_Z n))%Q.
Proof.
  intros Ht Hn. destruct (Z.eqb_spec n 0) as [|Hne]; [apply Qle_refl|].
  apply Qle_shift_div_l.
  - unfold Qlt; simpl; lia.
  - rewrite Qmult_0_l. exact Ht.
Qed.

(** X6. When no amount of the table is negative, the totals and the
    averages of a KPI result are not negative either. *)
Theorem kpi_totals_nonnegative db name step_from step_to :
  (forall r, In r db -> (0 <= Server.amount r)%Q) ->
  exists k,
    Server.tool_get_account_kpi db name step_from step_to = Py.Returned k
    /\ (0 <= Server.total_out (Server.kpi_out k))%Q
    /\ (0 <= Server.avg_out_amount (Server.kpi_out k))%Q
    /\ (0 <= Server.total_in (Server.kpi_in k))%Q
    /\ (0 <= Server.avg_in_amount (Server.kpi_in k))%Q.
Proof.
  intros Hpos.
  destruct (tool_get_account_kpi_fields db name step_from step_to)
    as (k & Hk & _ & _ & _ & Hno & Hto & _ & Hni & Hti & _ & Hao & Hai).
  exists k. split; [exact Hk|].
  assert (Hto' : (0 <= Server.total_out (Server.kpi_out k))%Q)
    by (rewrite Hto; apply sql_sum_nonneg, Hpos).
  assert (Hti' : (0 <= Server.total_in (Server.kpi_in k))%Q)
    by (rewrite Hti; apply sql_sum_nonneg, Hpos).
  repeat split; trivial.
  - rewrite Hao. apply guarded_average_nonneg; [exact Hto'|].
    rewrite Hno. unfold Server.sql_count. lia.
  - rewrite Hai. apply guarded_average_nonneg; [exact Hti'|].
    rewrite Hni. unfold Server.sql_count. lia.
Qed.

Lemma kpi_totals_nonnegative_sample :
  exists k,
    Server.tool_get_account_kpi Server.sample_db "C100" None None = Py.Returned k
    /\ (0 <= Server.total_out (Server.kpi_out k))%Q
    /\ (0 <= Server.avg_out_amount (Server.kpi_out k))%Q
    /\ (0 <= Server.total_in (Server.kpi_in k))%Q
    /\ (0 <= Server.avg_in_amount (Server.kpi_in k))%Q.
Proof.
  apply (kpi_totals_nonnegative Server.sample_db "C100" None None).
  intros r Hr. simpl in Hr.
  repeat (destruct Hr as [<-|Hr]; [vm_compute; discriminate|]).
  destruct Hr.
Defined.

(** Grouping by type: what [bump] and [group_by_type] keep. *)
Lemma bump_group_count t u groups :
  Server.group_count u (Server.bump t groups)
  = Server.group_count u groups + (if String.eqb u t then 1 else 0).
Proof.
  induction groups as [|[v c] groups IH]; simpl.
  - destruct (String.eqb u t); reflexivity.
  - destruct (String.eqb_spec t v) as [->|Htv]; simpl.
    + destruct (String.eqb_spec u v); lia.
    + destruct (String.eqb_spec u v) as [->|Huv].
      * destruct (String.eqb_spec v t); [congruence | lia].
      * exact IH.
Qed.

Lemma bump_keys t u groups :
  In u (map fst (Server.bump t groups)) <-> u = t \/ In u (map fst groups).
Proof.
  induction groups as [|[v c] groups IH]; simpl.
  - intuition.
  - destruct (String.eqb_spec t v) as [->|Htv]; simpl; [intuition|].
    rewrite IH. intuition.
Qed.

Lemma bump_nodup t groups :
  NoDup (map fst groups) -> NoDup (map fst (Server.bump t groups)).
Proof.
  induction groups as [|[v c] groups IH]; simpl; intros H.
  - repeat constructor. intros [].
  - apply NoDup_cons_iff in H as [Hv Hnd].
    destruct (String.eqb_spec t v) as [->|Htv]; simpl.
    + constructor; assumption.
    + constructor; [|apply IH, Hnd].
      rewrite bump_keys. intros [->|H]; [congruence | exact (Hv H)].
Qed.

Lemma bump_positive t groups :
  Forall (fun g => 1 <= snd g) groups ->
  Forall (fun g => 1 <= snd g) (Server.bump t groups).
Proof.
  induction 1 as [|[v c] groups Hc Hrest IH]; simpl.
  - repeat constructor. simpl; lia.
  - destruct (String.eqb t v); constructor; simpl in *; trivial; lia.
Qed.

Lemma bump_total t groups :
  Server.total_count (Server.bump t groups) = Server.total_count groups + 1.
Proof.
  induction groups as [|[v c] groups IH]; simpl; [reflexivity|].
  destruct (String.eqb t v); simpl; lia.
Qed.

Lemma group_fold rows :
  forall acc,
    NoDup (map fst acc) ->
    Forall (fun g => 1 <= snd g) acc ->
    let groups := fold_left (fun g r => Server.bump (Server.type r) g) rows acc in
    NoDup (map fst groups)
    /\ Forall (fun g => 1 <= snd g) groups
    /\ Server.total_count groups = Server.total_count acc + Py.len rows
    /\ forall u, Server.group_count u groups
                 = Server.group_count u acc + Server.count_type u rows.
Proof.
  induction rows as [|r rows IH]; intros acc Hnd Hpos; simpl.
  - repeat split; trivial; intros; unfold Server.count_type, Py.len; simpl; lia.
  - destruct (IH (Server.bump (Server.type r) acc)
                (bump_nodup _ _ Hnd) (bump_positive _ _ Hpos))
      as (H1 & H2 & H3 & H4).
    repeat split; trivial.
    + rewrite H3, bump_total. unfold Py.len. simpl List.length. lia.
    + intros u. rewrite H4, bump_group_count.
      unfold Server.count_type, Py.len. simpl.
      rewrite (String.eqb_sym (Server.type r) u).
      destruct (String.eqb u (Server.type r)); simpl List.length; lia.
Qed.

Lemma group_count_in t c groups :
  NoDup (map fst groups) -> In (t, c) groups -> Server.group_count t groups = c.
Proof.
  induction groups as [|[v d] groups IH]; simpl; intros Hnd Hin; [destruct Hin|].
  apply NoDup_cons_iff in Hnd as [Hv Hnd].
  destruct Hin as [[= -> ->]|Hin].
  - rewrite String.eqb_refl. reflexivity.
  - destruct (String.eqb_spec t v) as [->|_].
    + exfalso. apply Hv. apply in_map_iff. exists (v, c); auto.
    + apply IH; assumption.
Qed.

Lemma total_count_app a b :
  Server.total_count (a ++ b) = Server.total_count a + Server.total_count b.
Proof.
  induction a as [|g a IH]; simpl; [reflexivity | rewrite IH; lia].
Qed.

Lemma total_count_perm a b :
  Permutation a b -> Server.total_count a = Server.total_count b.
Proof.
  induction 1; simpl; lia.
Qed.

Lemma total_count_nonneg a :
  Forall (fun g => 1 <= snd g) a -> 0 <= Server.total_count a.
Proof.
  induction 1; simpl; lia.
Qed.

Lemma count_desc_total (g h : string * Z) :
  (snd h <=? snd g) = true \/ (snd g <=? snd h) = true.
Proof.
  destruct (Z.leb_spec (snd h) (snd g)); [left; reflexivity|].
  right. apply Z.leb_le. lia.
Qed.

Lemma count_desc_trans (g h i : string * Z) :
  (snd h <=? snd g) = true -> (snd i <=? snd h) = true ->
  (snd i <=? snd g) = true.
Proof.
  rewrite !Z.leb_le. lia.
Qed.

(** X7. The list of top outgoing types has at most five entries, in
    descending order of count and with pairwise distinct types; the count
    of an entry is the number of outgoing transactions of that type in the
    range, at least 1; the counts add up to no more than the number of
    outgoing transactions. *)
Theorem kpi_top_types_sound db name step_from step_to :
  let a := Py.if_not_none step_from 1 in
  let b := Py.if_not_none step_to 200 in
  exists k,
    Server.tool_get_account_kpi db name step_from step_to = Py.Returned k
    /\ (List.length (Server.top_out_types k) <= 5)%nat
    /\ StronglySorted Server.count_ge (Server.top_out_types k)
    /\ NoDup (map fst (Server.top_out_types k))
    /\ (forall t c, In (t, c) (Server.top_out_types k) ->
          1 <= c
          /\ c = Server.count_type t (filter (Server.outgoing name a b) db))
    /\ Server.total_count (Server.top_out_types k)
       <= Server.nb_out (Server.kpi_out k).
Proof.
  intros a b.
  destruct (tool_get_account_kpi_fields db name step_from step_to)
    as (k & Hk & _ & _ & _ & Hno & _ & _ & _ & _ & Htop & _ & _).
  fold a b in Hno, Htop.
  exists k. split; [exact Hk|].
  set (rows := filter (Server.outgoing name a b) db) in *.
  set (groups := Server.group_by_type rows) in *.
  set (sorted := Server.order_by _ groups) in *.
  destruct (group_fold rows [] (NoDup_nil _) (Forall_nil _))
    as (Hnd & Hpos & Htot & Hcnt).
  fold (Server.group_by_type rows) in Hnd, Hpos, Htot, Hcnt.
  fold groups in Hnd, Hpos, Htot, Hcnt.
  assert (Hperm : Permutation sorted groups) by apply order_by_perm.
  assert (Hsorted : StronglySorted
                      (fun g h : string * Z => (snd h <=? snd g) = true) sorted)
    by (apply order_by_sorted;
        [apply count_desc_total | intros x y z; apply count_desc_trans]).
  assert (Hnd' : NoDup (map fst sorted))
    by (eapply Permutation_NoDup;
        [apply Permutation_map; symmetry; exact Hperm | exact Hnd]).
  assert (Hpos' : Forall (fun g => 1 <= snd g) sorted)
    by (eapply Permutation_Forall; [symmetry; exact Hperm | exact Hpos]).
  assert (Hts : Server.total_count sorted = Py.len rows)
    by (rewrite (total_count_perm _ _ Hperm), Htot; simpl; lia).
  assert (Hlen : (List.length (Server.top_out_types k) <= 5)%nat)
    by (rewrite Htop; apply firstn_le_length).
  assert (Hin : forall g, In g (Server.top_out_types k) -> In g groups).
  { intros g Hg. apply (Permutation_in _ Hperm).
    rewrite <- (firstn_skipn 5 sorted), <- Htop. apply in_or_app. left; exact Hg. }
  pose proof (firstn_skipn 5 sorted) as Hsplit. rewrite <- Htop in Hsplit.
  clear Htop. clearbody sorted.
  revert Hsplit. generalize (skipn 5 sorted). intros rest Hsplit. subst sorted.
  split; [exact Hlen|].
  split.
  { apply sorted_app_inv in Hsorted as [Hs _].
    eapply (sorted_map (fun g => g)) in Hs.
    - rewrite map_id in Hs. exact Hs.
    - intros x y H. apply Z.leb_le in H. exact H. }
  split.
  { rewrite map_app in Hnd'. apply NoDup_app_remove_r in Hnd'. exact Hnd'. }
  split.
  { intros t c Htc. specialize (Hin (t, c) Htc).
    split.
    - rewrite Forall_forall in Hpos. apply (Hpos (t, c) Hin).
    - rewrite <- (group_count_in t c groups Hnd Hin), Hcnt. simpl. lia. }
  rewrite Hno. unfold Server.sql_count. fold rows.
  change (Z.of_nat (List.length rows)) with (Py.len rows).
  rewrite total_count_app in Hts.
  apply Forall_app in Hpos' as [_ Hrest].
  pose proof (total_count_nonneg _ Hrest). lia.
Qed.

(** *** The detector, continued *)

(** What [tool_detect_suspicious] returns when [max_rows] is a count the
    store accepts. *)
Lemma tool_detect_suspicious_fields db name min_amount window_steps max_rows :
  let threshold := Py.if_not_none min_amount (200000 # 1) in
  let n := Py.if_not_none max_rows 10 in
  0 <= n <= Server.bigint_max ->
  Server.tool_detect_suspicious db name min_amount window_steps max_rows
  = Py.Returned
      {| Server.det_name := name;
         Server.min_amount := threshold;
         Server.window_steps := Py.if_not_none window_steps 10;
         Server.max_rows := n;
         Server.matches :=
           map Server.match_of_row
             (firstn (Z.to_nat n)
                (Server.order_by Server.amount_desc
                   (filter (Server.candidate name threshold) db)));
         Server.det_note := "Règles simples de démo (pas de ML)." |}.
Proof.
  intros threshold n Hn.
  unfold Server.tool_detect_suspicious. fold threshold n.
  rewrite limit_in_range by exact Hn. reflexivity.
Qed.

(** What it returns, whenever it returns. *)
Lemma tool_detect_suspicious_returned db name min_amount window_steps max_rows d :
  Server.tool_detect_suspicious db name min_amount window_steps max_rows
  = Py.Returned d ->
  0 <= Py.if_not_none max_rows 10
  /\ Server.matches d
     = map Server.match_of_row
         (firstn (Z.to_nat (Py.if_not_none max_rows 10))
            (Server.order_by Server.amount_desc
               (filter (Server.candidate name
                          (Py.if_not_none min_amount (200000 # 1))) db))).
Proof.
  unfold Server.tool_detect_suspicious.
  destruct (Server.limit _ _) as [rows|e] eqn:E; cbn [Py.bind]; [|discriminate].
  apply limit_returned in E as [Hn ->].
  intros [= <-]. split; [exact Hn | reflexivity].
Qed.



Lemma in_firstn {A : Type} (x : A) n l : In x (firstn n l) -> In x l.
Proof.
  intros H. rewrite <- (firstn_skipn n l). apply in_or_app. left; exact H.
Qed.

(** X9. The detector returns nothing but candidates: every match is the
    projection of a row of the table whose origin is the account asked
    for, whose amount is at least the threshold and whose type is TRANSFER
    or CASH_OUT. *)
Theorem detector_matches_are_candidates db name min_amount window_steps max_rows d :
  Server.tool_detect_suspicious db name min_amount window_steps max_rows
  = Py.Returned d ->
  forall m, In m (Server.matches d) ->
    Server.m_name_orig m = name
    /\ (Py.if_not_none min_amount (200000 # 1) <= Server.m_amount m)%Q
    /\ (Server.m_type m = "TRANSFER"%string \/ Server.m_type m = "CASH_OUT"%string)
    /\ exists r, In r db /\ m = Server.match_of_row r.
Proof.
  intros Hdet m Hm.
  apply tool_detect_suspicious_returned in Hdet as [_ Hms]. rewrite Hms in Hm.
  apply in_map_iff in Hm as (r & <- & Hr).
  apply in_firstn in Hr.
  apply (Permutation_in _ (order_by_perm _ _)) in Hr.
  apply filter_In in Hr as [Hdb Hc].
  unfold Server.candidate in Hc.
  apply andb_prop in Hc as [Hc Ht]. apply andb_prop in Hc as [Hn Ha].
  apply String.eqb_eq in Hn. apply Qle_bool_iff in Ha.
  apply orb_prop in Ht. rewrite !String.eqb_eq in Ht.
  cbn. repeat split; trivial. exists r; auto.
Qed.

Lemma detector_matches_are_candidates_sample :
  let m := Server.mkMatch 2 3 "CASH_OUT" (500000 # 1) "C100" "C300" true in
  Server.m_name_orig m = "C100"%string
  /\ (200000 # 1 <= Server.m_amount m)%Q
  /\ (Server.m_type m = "TRANSFER"%string \/ Server.m_type m = "CASH_OUT"%string)
  /\ exists r, In r Server.sample_db /\ m = Server.match_of_row r.
Proof.
  apply (detector_matches_are_candidates Server.sample_db "C100"
           (Some (200000 # 1)) None None (Server.sample_detection (200000 # 1))).
  - reflexivity.
  - vm_compute. left. reflexivity.
Defined.

(** X10. Raising the threshold never gives more matches: with the same
    table, account and [max_rows], a call with a larger [min_amount]
    returns at most as many matches. *)
Theorem detector_antitone_in_threshold db name m1 m2 window1 window2 max_rows d1 d2 :
  (m1 <= m2)%Q ->
  Server.tool_detect_suspicious db name (Some m1) window1 max_rows = Py.Returned d1 ->
  Server.tool_detect_suspicious db name (Some m2) window2 max_rows = Py.Returned d2 ->
  Py.len (Server.matches d2) <= Py.len (Server.matches d1).
Proof.
  intros Hle H1 H2.
  apply tool_detect_suspicious_returned in H1 as [_ ->].
  apply tool_detect_suspicious_returned in H2 as [_ ->].
  cbn [Py.if_not_none].
  unfold Py.len. rewrite !length_map, !length_firstn.
  rewrite !(Permutation_length (order_by_perm _ _)).
  pose proof (filter_length_impl (Server.candidate name m2)
                (Server.candidate name m1) db) as H.
  assert (Himp : forall x, In x db ->
            Server.candidate name m2 x = true -> Server.candidate name m1 x = true).
  { intros x _. unfold Server.candidate.
    destruct (String.eqb (Server.name_orig x) name); [|discriminate].
    destruct (String.eqb (Server.type x) "TRANSFER"
              || String.eqb (Server.type x) "CASH_OUT")%bool;
      rewrite ?andb_false_r; [|discriminate].
    rewrite !andb_true_r, !andb_true_l, !Qle_bool_iff.
    intros H2. eapply Qle_trans; eassumption. }
  specialize (H Himp). lia.
Qed.

Lemma detector_antitone_in_threshold_sample :
  Py.len (Server.matches (Server.sample_detection (400000 # 1)))
  <= Py.len (Server.matches (Server.sample_detection (200000 # 1))).
Proof.
  apply (detector_antitone_in_threshold Server.sample_db "C100"
           (200000 # 1) (400000 # 1) None None None);
    [vm_compute; discriminate | reflexivity | reflexivity].
Defined.

(** *** From the id typed on the lookup page to the row read by the server *)

Lemma digit_cases d :
  0 <= d < 10 ->
  d = 0 \/ d = 1 \/ d = 2 \/ d = 3 \/ d = 4 \/ d = 5 \/ d = 6 \/ d = 7
  \/ d = 8 \/ d = 9.
Proof. lia. Qed.

Ltac each_digit H :=
  apply digit_cases in H;
  repeat (destruct H as [->|H]); [..|rewrite H].

Lemma digit_of_digit_char d :
  0 <= d < 10 -> Server.digit_of (Py.digit_char d) = Some d.
Proof. intros H. each_digit H; reflexivity. Qed.

Lemma digit_char_not_space d :
  0 <= d < 10 -> Server.is_space (Py.digit_char d) = false.
Proof. intros H. each_digit H; reflexivity. Qed.

Lemma pow2_succ f : 2 ^ Z.of_nat (S f) = 2 * 2 ^ Z.of_nat f.
Proof. rewrite Nat2Z.inj_succ, Z.pow_succ_r; [reflexivity | lia]. Qed.

Lemma pow2_pos f : 0 < 2 ^ Z.of_nat f.
Proof. apply Z.pow_pos_nonneg; lia. Qed.

(** Reading back the digits written by [str_digits]. *)
Lemma digits_str_digits f :
  forall n acc,
    0 <= n < 2 ^ Z.of_nat (S f) ->
    exists k, forall a b,
      Server.digits (Py.str_digits (S f) n acc) a b
      = Server.digits acc (a * k + n) true.
Proof.
  induction f as [|f IH]; intros n acc Hn.
  - exists 10. intros a b.
    assert (Hn' : 0 <= n < 10) by (rewrite pow2_succ in Hn; simpl in Hn; lia).
    cbn [Py.str_digits].
    destruct (Z.ltb_spec n 10); [|lia].
    rewrite Z.mod_small by lia.
    cbn [Server.digits]. rewrite digit_of_digit_char by lia.
    f_equal. lia.
  - assert (Hm : 0 <= n mod 10 < 10) by (apply Z.mod_pos_bound; lia).
    pose proof (Z.div_mod n 10 ltac:(lia)) as Hdm.
    change (Py.str_digits (S (S f)) n acc)
      with (let acc' := String (Py.digit_char (n mod 10)) acc in
            if n <? 10 then acc' else Py.str_digits (S f) (n / 10) acc').
    cbv zeta.
    destruct (Z.ltb_spec n 10) as [Hlt|Hge].
    + exists 10. intros a b.
      cbn [Server.digits]. rewrite digit_of_digit_char by lia.
      f_equal. rewrite Z.mod_small in * by lia. lia.
    + assert (Hq : 0 <= n / 10 < 2 ^ Z.of_nat (S f)).
      { split; [apply Z.div_pos; lia|].
        apply Z.div_lt_upper_bound; [lia|].
        rewrite (pow2_succ (S f)) in Hn.
        pose proof (pow2_pos (S f)). lia. }
      destruct (IH (n / 10) (String (Py.digit_char (n mod 10)) acc) Hq) as [k Hk].
      exists (10 * k). intros a b.
      rewrite Hk. cbn [Server.digits]. rewrite digit_of_digit_char by lia.
      f_equal. lia.
Qed.

Lemma str_digits_head f :
  forall n acc,
    0 <= n < 2 ^ Z.of_nat (S f) ->
    exists d r, 0 <= d < 10 /\ Py.str_digits (S f) n acc = String (Py.digit_char d) r.
Proof.
  induction f as [|f IH]; intros n acc Hn.
  - exists (n mod 10), acc.
    assert (Hn' : 0 <= n < 10) by (rewrite pow2_succ in Hn; simpl in Hn; lia).
    split; [apply Z.mod_pos_bound; lia|].
    cbn [Py.str_digits]. destruct (Z.ltb_spec n 10); [reflexivity | lia].
  - change (Py.str_digits (S (S f)) n acc)
      with (let acc' := String (Py.digit_char (n mod 10)) acc in
            if n <? 10 then acc' else Py.str_digits (S f) (n / 10) acc').
    cbv zeta.
    destruct (Z.ltb_spec n 10) as [Hlt|Hge].
    + exists (n mod 10), acc. split; [apply Z.mod_pos_bound; lia | reflexivity].
    + apply IH. split; [apply Z.div_pos; lia|].
      apply Z.div_lt_upper_bound; [lia|].
      rewrite (pow2_succ (S f)) in Hn.
      pose proof (pow2_pos (S f)). lia.
Qed.

Lemma str_digits_no_space f :
  forall n acc,
    Server.no_space acc = true -> Server.no_space (Py.str_digits f n acc) = true.
Proof.
  induction f as [|f IH]; intros n acc Hacc; [exact Hacc|].
  assert (Hm : 0 <= n mod 10 < 10) by (apply Z.mod_pos_bound; lia).
  assert (Hacc' : Server.no_space (String (Py.digit_char (n mod 10)) acc) = true)
    by (cbn [Server.no_space]; rewrite digit_char_not_space, Hacc by lia; reflexivity).
  change (Py.str_digits (S f) n acc)
    with (let acc' := String (Py.digit_char (n mod 10)) acc in
          if n <? 10 then acc' else Py.str_digits f (n / 10) acc').
  cbv zeta. destruct (n <? 10); [exact Hacc' | apply IH, Hacc'].
Qed.

Lemma fuel_enough n : 0 <= n -> 0 <= n < 2 ^ Z.of_nat (S (Z.to_nat (Z.log2 n))).
Proof.
  intros Hn. split; [exact Hn|].
  rewrite Nat2Z.inj_succ, Z2Nat.id by apply Z.log2_nonneg.
  destruct (Z.eq_dec n 0) as [->|Hne]; [reflexivity|].
  apply Z.log2_spec. lia.
Qed.

(** [strip] leaves a string without white space as it is. *)
Lemma rev_string_no_space s :
  forall acc,
    Server.no_space s = true -> Server.no_space acc = true ->
    Server.no_space (Server.rev_string s acc) = true.
Proof.
  induction s as [|c s IH]; intros acc Hs Hacc; [exact Hacc|].
  cbn [Server.no_space] in Hs. apply andb_prop in Hs as [Hc Hs].
  cbn [Server.rev_string]. apply IH; [exact Hs|].
  cbn [Server.no_space]. rewrite Hc, Hacc. reflexivity.
Qed.

Lemma rev_string_twice s :
  forall acc acc',
    Server.rev_string (Server.rev_string s acc) acc'
    = Server.rev_string acc (s ++ acc')%string.
Proof.
  induction s as [|c s IH]; intros acc acc'; [reflexivity|].
  cbn [Server.rev_string]. rewrite IH. reflexivity.
Qed.

Lemma append_empty s : (s ++ EmptyString)%string = s.
Proof. induction s as [|c s IH]; simpl; [|rewrite IH]; reflexivity. Qed.

Lemma lstrip_no_space s : Server.no_space s = true -> Server.lstrip s = s.
Proof.
  destruct s as [|c s]; [reflexivity|].
  cbn [Server.no_space Server.lstrip]. intros H.
  apply andb_prop in H as [Hc _]. apply negb_true_iff in Hc.
  rewrite Hc. reflexivity.
Qed.

Lemma strip_no_space s : Server.no_space s = true -> Server.strip s = s.
Proof.
  intros H. unfold Server.strip.
  rewrite (lstrip_no_space s H).
  rewrite lstrip_no_space by (apply rev_string_no_space; [exact H | reflexivity]).
  rewrite rev_string_twice. cbn [Server.rev_string]. apply append_empty.
Qed.

Lemma py_int_str_nonneg n :
  0 <= n ->
  Server.strip (Py.str_nonneg n) = Py.str_nonneg n
  /\ Server.digits (Py.str_nonneg n) 0 false = Some n
  /\ Server.py_int (Py.str_nonneg n) = Py.Returned n.
Proof.
  intros Hn. unfold Py.str_nonneg.
  pose proof (fuel_enough n Hn) as Hf.
  set (f := Z.to_nat (Z.log2 n)) in *.
  assert (Hstrip : Server.strip (Py.str_digits (S f) n EmptyString)
                   = Py.str_digits (S f) n EmptyString)
    by (apply strip_no_space, str_digits_no_space; reflexivity).
  assert (Hdig : Server.digits (Py.str_digits (S f) n EmptyString) 0 false = Some n).
  { destruct (digits_str_digits f n EmptyString Hf) as [k Hk].
    rewrite Hk. cbn [Server.digits]. f_equal; lia. }
  split; [exact Hstrip|]. split; [exact Hdig|].
  unfold Server.py_int. rewrite Hstrip.
  destruct (str_digits_head f n EmptyString Hf) as (d & r & Hd & Hhead).
  rewrite Hhead in *.
  assert (Hbody : match String (Py.digit_char d) r with
                  | String "-" r0 => option_map Z.opp (Server.digits r0 0 false)
                  | String "+" r0 => Server.digits r0 0 false
                  | _ => Server.digits (String (Py.digit_char d) r) 0 false
                  end
                  = Server.digits (String (Py.digit_char d) r) 0 false)
    by (each_digit Hd; reflexivity).
  rewrite Hbody, Hdig. reflexivity.
Qed.

Lemma transaction_uri_read db tx_id :
  Server.py_int (Py.str_int tx_id) = Py.Returned tx_id
  /\ Server.resource_read db (App.transaction_uri tx_id)
     = Py.Returned
         match find (fun r => Server.id r =? tx_id) db with
         | Some row => Server.TransactionResource row
         | None => Server.TransactionNotFound tx_id
         end.
Proof.
  assert (Hparse : Server.py_int (Py.str_int tx_id) = Py.Returned tx_id).
  { unfold Py.str_int.
    destruct (Z.ltb_spec tx_id 0) as [Hneg|Hpos].
    - destruct (py_int_str_nonneg (- tx_id) ltac:(lia)) as (_ & Hd & _).
      assert (Hns : Server.no_space (String "-" (Py.str_nonneg (- tx_id))) = true).
      { cbn [Server.no_space]. unfold Py.str_nonneg.
        rewrite str_digits_no_space; reflexivity. }
      unfold Server.py_int. rewrite (strip_no_space _ Hns), Hd.
      cbn. f_equal. lia.
    - apply py_int_str_nonneg, Hpos. }
  split; [exact Hparse|].
  unfold App.transaction_uri, Server.resource_read, Server.after_slash. cbn.
  rewrite prefix_empty, Hparse. cbn.
  destruct (find _ db); reflexivity.
Qed.

(** X11. The decimal text of an id is read back as the same id, so the
    URI the lookup page builds for an id never makes the server raise: the
    server answers with the first row carrying that id, or with the
    not-found result when there is none. *)
Theorem transaction_uri_round_trip db tx_id :
  Server.py_int (Py.str_int tx_id) = Py.Returned tx_id
  /\ Server.resource_read db (App.transaction_uri tx_id)
     = Py.Returned
         match find (fun r => Server.id r =? tx_id) db with
         | Some row => Server.TransactionResource row
         | None => Server.TransactionNotFound tx_id
         end.
Proof.
  apply transaction_uri_read.
Qed.

(** ** Further properties of the scoring engine *)

(** The seven entries of a breakdown, flags and points. *)
Lemma breakdown_shape kpi suspicious tx :
  let m := App.min_amount_of suspicious in
  let t7 := (App.tx_truthy tx && (0 <? App.tx_points tx m))%bool in
  exists w1 w2 w3 w4 w5 w6 w7,
    snd (App.all_rules kpi suspicious tx)
    = [ App.mkEntry "Concentration des sorties"
          (App.award (App.trig_concentration kpi suspicious) 25)
          (App.trig_concentration kpi suspicious) w1;
        App.mkEntry "Montant moyen sortant élevé"
          (App.award (App.trig_high_average kpi suspicious) 20)
          (App.trig_high_average kpi suspicious) w2;
        App.mkEntry "Au moins 1 match détecté"
          (App.award (App.trig_one_match suspicious) 25)
          (App.trig_one_match suspicious) w3;
        App.mkEntry "Plusieurs matchs (≥ 3)"
          (App.award (App.trig_many_matches suspicious) 10)
          (App.trig_many_matches suspicious) w4;
        App.mkEntry "Fraude labellisée (dataset)"
          (App.award (App.trig_labelled_fraud kpi) 25)
          (App.trig_labelled_fraud kpi) w5;
        App.mkEntry "Déséquilibre (aucune entrée)"
          (App.award (App.trig_imbalance kpi) 10)
          (App.trig_imbalance kpi) w6;
        App.mkEntry "Signal sur la transaction consultée"
          (App.award t7 (Z.min (App.tx_points tx m) 20)) t7 w7 ].
Proof.
  intros m t7.
  unfold App.all_rules, App.account_rules.
  repeat rewrite add_rule_snd.
  repeat eexists.
Qed.

Lemma next_actions_build_insights kpi suspicious tx :
  App.next_actions (App.build_insights kpi suspicious tx)
  = if 80 <=? App.score (App.build_insights kpi suspicious tx) then
      [ "Mettre le compte en **revue prioritaire** (contrôle manuel).";
        "Vérifier la **cohérence des soldes** (old/new) sur les transferts détectés.";
        "Analyser les **contreparties fréquentes** (name_dest) et la concentration temporelle (steps)." ]%string
    else if 50 <=? App.score (App.build_insights kpi suspicious tx) then
      [ "Contrôle ciblé des transferts > seuil et de la **fenêtre de steps**.";
        "Comparer ce compte à des comptes similaires (même type/volumes)." ]%string
    else
      [ "Aucun signal fort : surveiller via alerting simple.";
        "Affiner le seuil si tu veux être plus sensible (mais + faux positifs)." ]%string.
Proof.
  unfold App.build_insights.
  destruct (App.all_rules kpi suspicious tx) as [sc bd]; reflexivity.
Qed.

(** X12. The label of the title and the list of recommended actions always
    belong to the same tier of the score: the high tier from 80, the
    middle tier from 50 to 79, the low tier below 50. *)
Theorem title_and_actions_same_tier kpi suspicious tx :
  let ins := App.build_insights kpi suspicious tx in
  let label := App.risk_label (App.score ins) in
  App.title ins
  = [App.Lit "Risque global: **"; App.Lit label; App.Lit "** (score ";
     App.Num (App.score ins); App.Lit "/100)"]
  /\ ((80 <= App.score ins
       /\ label = "Élevé"%string
       /\ nth 0 (App.next_actions ins) EmptyString
          = "Mettre le compte en **revue prioritaire** (contrôle manuel)."%string
       /\ List.length (App.next_actions ins) = 3%nat)
      \/ (50 <= App.score ins < 80
          /\ label = "Modéré"%string
          /\ nth 0 (App.next_actions ins) EmptyString
             = "Contrôle ciblé des transferts > seuil et de la **fenêtre de steps**."%string
          /\ List.length (App.next_actions ins) = 2%nat)
      \/ (App.score ins < 50
          /\ label = "Faible"%string
          /\ nth 0 (App.next_actions ins) EmptyString
             = "Aucun signal fort : surveiller via alerting simple."%string
          /\ List.length (App.next_actions ins) = 2%nat)).
Proof.
  intros ins label. unfold label, ins.
  split; [apply title_build_insights|].
  rewrite next_actions_build_insights. unfold App.risk_label.
  destruct (Z.leb_spec 80 (App.score (App.build_insights kpi suspicious tx)));
    [left; repeat split; trivial|].
  destruct (Z.leb_spec 50 (App.score (App.build_insights kpi suspicious tx)));
    [right; left | right; right]; repeat split; trivial.
Qed.

(** X13. The rule on several matches never fires alone: when it is
    triggered the rule on one match is triggered too, so the two rules on
    matches bring 0, 25 or 35 points together. *)
Theorem many_matches_implies_one_match kpi suspicious tx :
  let b := App.breakdown (App.build_insights kpi suspicious tx) in
  exists one many,
    App.entry_of b "Au moins 1 match détecté" = Some one
    /\ App.entry_of b "Plusieurs matchs (≥ 3)" = Some many
    /\ (App.triggered many = true -> App.triggered one = true)
    /\ (App.points one + App.points many = 0
        \/ App.points one + App.points many = 25
        \/ App.points one + App.points many = 35).
Proof.
  intros b. unfold b. rewrite breakdown_build_insights.
  destruct (breakdown_shape kpi suspicious tx)
    as (w1 & w2 & w3 & w4 & w5 & w6 & w7 & ->).
  eexists. eexists.
  split; [reflexivity|]. split; [reflexivity|].
  cbn [App.triggered App.points].
  unfold App.trig_one_match, App.trig_many_matches, App.award.
  destruct (Z.leb_spec 3 (Py.len (App.matches_of suspicious)));
    destruct (Z.leb_spec 1 (Py.len (App.matches_of suspicious)));
    split; auto; try lia; discriminate.
Qed.

(** X14. Giving a transaction never lowers the score and raises it by at
    most 20; the six account entries of the breakdown are the same with and
    without it. *)
Theorem transaction_adds_at_most_20 kpi suspicious t :
  let without := App.build_insights kpi suspicious None in
  let with_tx := App.build_insights kpi suspicious (Some t) in
  App.score without <= App.score with_tx <= App.score without + 20
  /\ firstn 6 (App.breakdown with_tx) = firstn 6 (App.breakdown without).
Proof.
  intros without with_tx. unfold without, with_tx.
  rewrite !score_build_insights, !raw_score, !breakdown_build_insights.
  pose proof (tx_points_range (Some t) (App.min_amount_of suspicious)).
  split.
  - change (App.tx_points None (App.min_amount_of suspicious)) with 0. lia.
  - unfold App.all_rules. rewrite !add_rule_snd.
    assert (Hlen : List.length (snd (App.account_rules kpi suspicious)) = 6%nat).
    { unfold App.account_rules. repeat rewrite add_rule_snd. reflexivity. }
    rewrite !firstn_app, Hlen. reflexivity.
Qed.

(** X15. A threshold of zero in the detection result is taken as missing:
    the engine then works with 200000, and its whole result is the one
    obtained without threshold.  Likewise, whatever the threshold, a
    window of zero steps is taken as missing and replaced by 10. *)
Theorem zero_threshold_is_replaced kpi ms q mq w tx :
  ((q == 0)%Q ->
   App.min_amount_of (Some (App.mkSuspicious ms (Some q) w)) = 200000 # 1
   /\ App.build_insights kpi (Some (App.mkSuspicious ms (Some q) w)) tx
      = App.build_insights kpi (Some (App.mkSuspicious ms None w)) tx)
  /\ App.window_steps_of (Some (App.mkSuspicious ms mq (Some 0))) = 10
  /\ App.build_insights kpi (Some (App.mkSuspicious ms mq (Some 0))) tx
     = App.build_insights kpi (Some (App.mkSuspicious ms mq None)) tx.
Proof.
  split; [|split; reflexivity].
  intros Hq. apply Qeq_bool_iff in Hq.
  assert (Hm : App.min_amount_of (Some (App.mkSuspicious ms (Some q) w))
               = App.min_amount_of (Some (App.mkSuspicious ms None w))).
  { unfold App.min_amount_of, Py.float_or. cbn. rewrite Hq. reflexivity. }
  split; [rewrite Hm; reflexivity|].
  unfold App.build_insights, App.all_rules, App.account_rules,
    App.trig_concentration, App.trig_high_average, App.tx_points, App.tx_reason.
  rewrite !Hm. reflexivity.
Qed.

Lemma zero_threshold_is_replaced_sample :
  App.min_amount_of (Some (App.mkSuspicious (Some []) (Some (0 # 5)) (Some 3)))
  = 200000 # 1
  /\ App.build_insights App.scenario1_kpi
       (Some (App.mkSuspicious (Some []) (Some (0 # 5)) (Some 3))) None
     = App.build_insights App.scenario1_kpi
         (Some (App.mkSuspicious (Some []) None (Some 3))) None.
Proof.
  apply (zero_threshold_is_replaced App.scenario1_kpi (Some []) (0 # 5)
           (Some (300000 # 1)) (Some 3) None).
  reflexivity.
Defined.

Lemma min_amount_positive suspicious :
  (forall s q, suspicious = Some s -> App.min_amount s = Some q -> (0 <= q)%Q) ->
  (0 < App.min_amount_of suspicious)%Q.
Proof.
  intros H. unfold App.min_amount_of, Py.float_or.
  destruct suspicious as [s|]; [|reflexivity].
  destruct (App.min_amount s) as [q|] eqn:E; [|reflexivity].
  destruct (Qeq_bool q 0) eqn:Eq; [reflexivity|].
  specialize (H s q eq_refl E).
  apply Qle_lteq in H as [H|H]; [exact H|].
  symmetry in H. apply Qeq_bool_iff in H. congruence.
Qed.

(** X16. An account without outgoing activity (no outgoing transaction, no
    outgoing total, no labelled fraud), without match and without
    transaction scores 0 as soon as the threshold of the detection result
    is not negative: no rule is triggered and the label is the lowest. *)
Theorem quiet_account_scores_zero kpi suspicious :
  Py.int_or (App.nb_out (App.out_of kpi)) 0 = 0 ->
  (Py.float_or (App.total_out (App.out_of kpi)) 0 == 0)%Q ->
  Py.int_or (App.fraud_out (App.out_of kpi)) 0 = 0 ->
  App.matches_of suspicious = [] ->
  (forall s q, suspicious = Some s -> App.min_amount s = Some q -> (0 <= q)%Q) ->
  let ins := App.build_insights kpi suspicious None in
  App.score ins = 0
  /\ App.risk_label (App.score ins) = "Faible"%string
  /\ Forall (fun e => App.triggered e = false) (App.breakdown ins).
Proof.
  intros Hnb Htot Hfraud Hmatches Hthreshold ins. unfold ins.
  pose proof (min_amount_positive suspicious Hthreshold) as Hpos.
  assert (H1 : App.trig_concentration kpi suspicious = false).
  { unfold App.trig_concentration, Py.ge. rewrite Hnb. cbn [Z.leb andb].
    destruct (Qle_bool _ _) eqn:E; [|reflexivity].
    apply Qle_bool_iff in E. rewrite Htot in E.
    exfalso. apply (Qlt_not_le _ _ Hpos E). }
  assert (H2 : App.trig_high_average kpi suspicious = false).
  { unfold App.trig_high_average. rewrite Hnb. apply andb_false_r. }
  assert (H3 : App.trig_one_match suspicious = false).
  { unfold App.trig_one_match. rewrite Hmatches. reflexivity. }
  assert (H4 : App.trig_many_matches suspicious = false).
  { unfold App.trig_many_matches. rewrite Hmatches. reflexivity. }
  assert (H5 : App.trig_labelled_fraud kpi = false).
  { unfold App.trig_labelled_fraud. rewrite Hfraud. reflexivity. }
  assert (H6 : App.trig_imbalance kpi = false).
  { unfold App.trig_imbalance, Py.gt.
    destruct (Qle_bool (Py.float_or (App.total_out (App.out_of kpi)) 0) 0) eqn:E.
    - apply andb_false_r.
    - exfalso. rewrite <- not_true_iff_false in E. apply E.
      apply Qle_bool_iff. rewrite Htot. apply Qle_refl. }
  assert (Hscore : App.score (App.build_insights kpi suspicious None) = 0).
  { rewrite score_build_insights, raw_score, H1, H2, H3, H4, H5, H6. reflexivity. }
  split; [exact Hscore|]. split; [rewrite Hscore; reflexivity|].
  rewrite breakdown_build_insights.
  destruct (breakdown_shape kpi suspicious None)
    as (w1 & w2 & w3 & w4 & w5 & w6 & w7 & ->).
  rewrite H1, H2, H3, H4, H5, H6.
  repeat constructor.
Qed.

Lemma quiet_account_scores_zero_sample :
  let ins := App.build_insights None None None in
  App.score ins = 0
  /\ App.risk_label (App.score ins) = "Faible"%string
  /\ Forall (fun e => App.triggered e = false) (App.breakdown ins).
Proof.
  apply (quiet_account_scores_zero None None); try reflexivity.
  intros s q [=].
Defined.

(** X17. A high score needs several rules: the label is [Élevé] (score of
    80 or more) only when at least four rules are triggered, and [Modéré]
    (50 or more) only when at least two are; a positive score needs one. *)
Theorem tiers_need_several_rules kpi suspicious tx :
  let ins := App.build_insights kpi suspicious tx in
  (80 <= App.score ins -> 4 <= App.nb_triggered (App.breakdown ins))
  /\ (50 <= App.score ins -> 2 <= App.nb_triggered (App.breakdown ins))
  /\ (0 < App.score ins -> 1 <= App.nb_triggered (App.breakdown ins)).
Proof.
  intros ins. unfold ins.
  rewrite score_build_insights, raw_score, breakdown_build_insights.
  destruct (breakdown_shape kpi suspicious tx)
    as (w1 & w2 & w3 & w4 & w5 & w6 & w7 & ->).
  pose proof (tx_points_range tx (App.min_amount_of suspicious)) as Hr.
  rewrite <- (tx_award tx (App.min_amount_of suspicious)).
  unfold App.nb_triggered, App.award.
  destruct (App.trig_concentration kpi suspicious),
    (App.trig_high_average kpi suspicious),
    (App.trig_one_match suspicious),
    (App.trig_many_matches suspicious),
    (App.trig_labelled_fraud kpi),
    (App.trig_imbalance kpi),
    (App.tx_truthy tx && (0 <? App.tx_points tx (App.min_amount_of suspicious)))%bool;
    cbn [filter App.triggered Py.len List.length Z.of_nat Pos.of_succ_nat
         Pos.succ];
    repeat split; intros; lia.
Qed.

Lemma tx_reason_length t m :
  List.length (App.tx_reason (Some t) m)
  = ((if App.tx_labelled_fraud t then 1 else 0)
     + (if App.tx_drained t then 1 else 0)
     + (if App.tx_large t m then 1 else 0))%nat.
Proof.
  unfold App.tx_reason, App.tx_signal.
  destruct (App.tx_labelled_fraud t), (App.tx_drained t), (App.tx_large t m);
    reflexivity.
Qed.

(** X18. The bullets follow the score: two lines on the account, one line
    on the matches, one more line exactly when the rule on labelled fraud
    is triggered, and one line for each reason counted by the rule on the
    transaction.  So there are between three and seven bullets. *)
Theorem bullets_follow_the_rules kpi suspicious tx :
  let ins := App.build_insights kpi suspicious tx in
  let m := App.min_amount_of suspicious in
  List.length (App.bullets ins)
  = (3 + (if App.trig_labelled_fraud kpi then 1 else 0)
     + List.length (App.tx_reason tx m))%nat
  /\ (3 <= List.length (App.bullets ins) <= 7)%nat.
Proof.
  intros ins m.
  assert (H : List.length (App.bullets ins)
              = (3 + (if App.trig_labelled_fraud kpi then 1 else 0)
                 + List.length (App.tx_reason tx m))%nat).
  { unfold ins, App.build_insights.
    destruct (App.all_rules kpi suspicious tx) as [sc bd].
    cbn [App.bullets]. unfold App.trig_labelled_fraud. fold m.
    destruct tx as [t|].
    - rewrite tx_reason_length.
      destruct (0 <? Py.int_or (App.fraud_out (App.out_of kpi)) 0),
        (Py.len (App.matches_of suspicious) =? 0),
        (App.tx_labelled_fraud t), (App.tx_drained t), (App.tx_large t m);
        repeat rewrite length_app; reflexivity.
    - destruct (0 <? Py.int_or (App.fraud_out (App.out_of kpi)) 0),
        (Py.len (App.matches_of suspicious) =? 0);
        repeat rewrite length_app; reflexivity. }
  split; [exact H|]. rewrite H.
  destruct tx as [t|]; [rewrite tx_reason_length|];
    destruct (App.trig_labelled_fraud kpi);
    try destruct (App.tx_labelled_fraud t), (App.tx_drained t), (App.tx_large t m);
    simpl; lia.
Qed.

Lemma badge_level_risk_badge n a :
  App.badge_level (App.risk_badge n a)
  = if n =? 0 then 0
    else if ((3 <=? n) || Py.ge a (1000000 # 1))%bool then 2 else 1.
Proof.
  unfold App.risk_badge.
  destruct (n =? 0); [reflexivity|].
  destruct ((3 <=? n) || Py.ge a (1000000 # 1))%bool; reflexivity.
Qed.

Lemma risk_badge_lowest n a :
  App.risk_badge n a = "🟢 Faible"%string <-> n = 0.
Proof.
  unfold App.risk_badge.
  destruct (Z.eqb_spec n 0) as [E|E]; [tauto|].
  destruct ((3 <=? n) || Py.ge a (1000000 # 1))%bool;
    split; intros H; [discriminate H | contradiction | discriminate H | contradiction].
Qed.

(** X19. The badge of the detection page grows with its arguments: for
    numbers of matches that are not negative, more matches or a larger
    maximum never give a lower badge; the badge is the lowest exactly when
    there is no match. *)
Theorem risk_badge_monotone n1 n2 (a1 a2 : Q) :
  0 <= n1 <= n2 ->
  (a1 <= a2)%Q ->
  App.badge_level (App.risk_badge n1 a1) <= App.badge_level (App.risk_badge n2 a2)
  /\ (App.risk_badge n1 a1 = "🟢 Faible"%string <-> n1 = 0).
Proof.
  intros Hn Ha. split; [|apply risk_badge_lowest].
  rewrite !badge_level_risk_badge. unfold Py.ge.
  assert (Hq : Qle_bool (1000000 # 1) a1 = true -> Qle_bool (1000000 # 1) a2 = true).
  { rewrite !Qle_bool_iff. intros Hle. eapply Qle_trans; eassumption. }
  destruct (Z.eqb_spec n1 0), (Z.eqb_spec n2 0);
    destruct (Z.leb_spec 3 n1), (Z.leb_spec 3 n2);
    destruct (Qle_bool (1000000 # 1) a1);
    try rewrite (Hq eq_refl);
    try destruct (Qle_bool (1000000 # 1) a2);
    cbn [orb]; lia.
Qed.

Lemma risk_badge_monotone_sample :
  App.badge_level (App.risk_badge 1 (500000 # 1))
  <= App.badge_level (App.risk_badge 2 (1500000 # 1))
  /\ (App.risk_badge 1 (500000 # 1) = "🟢 Faible"%string <-> 1 = 0).
Proof.
  apply risk_badge_monotone; [lia | vm_compute; discriminate].
Defined.

(** ** Properties of the other helpers of the dashboard *)

(** *** The suggestion of detection parameters *)

Lemma int_or_some_0 n : Py.int_or (Some n) 0 = n.
Proof. unfold Py.int_or. destruct (Z.eqb_spec n 0); congruence. Qed.

Lemma float_or_some_0 q : (Py.float_or (Some q) 0 == q)%Q.
Proof.
  unfold Py.float_or. destruct (Qeq_bool q 0) eqn:E; [|reflexivity].
  apply Qeq_bool_iff in E. symmetry. exact E.
Qed.

(** What [suggest_detection_params] returns: it never raises, and its
    threshold and window are the proposed ones for its own statistics. *)
Lemma suggest_detection_params_fields db account :
  exists sug,
    App.suggest_detection_params db account = Py.Returned sug
    /\ App.sug_nb_out sug = Py.len (App.sent_by account db)
    /\ (App.sug_max_amt sug
        == Server.coalesce (Server.sql_max_amount (App.sent_by account db)) 0)%Q
    /\ App.sug_min_amount sug
       = App.proposed_threshold (App.sug_p95 sug) (App.sug_avg_amt sug)
           (App.sug_max_amt sug)
    /\ App.sug_window_steps sug = App.proposed_window (App.sug_nb_out sug)
    /\ 0 <= App.sug_step_span sug
    /\ (0 <= App.sug_density sug)%Q.
Proof.
  unfold App.suggest_detection_params. fold (App.sent_by account db).
  set (rows := App.sent_by account db).
  rewrite !int_or_some_0.
  set (span := Z.max 0 _).
  assert (Hlen : 0 <= Py.len rows) by (unfold Py.len; lia).
  assert (Hdens : exists density,
            (if 0 <? span then Py.truediv_int (Py.len rows) span
             else Py.Returned (if Py.len rows =? 0 then 0%Q else inject_Z (Py.len rows)))
            = Py.Returned density /\ (0 <= density)%Q).
  { unfold Py.truediv_int.
    destruct (Z.ltb_spec 0 span) as [Hs|Hs].
    - destruct (Z.eqb_spec span 0); [lia|].
      eexists; split; [reflexivity|].
      apply Qle_shift_div_l; [unfold Qlt; simpl; lia|].
      rewrite Qmult_0_l. unfold Qle; simpl; lia.
    - eexists; split; [reflexivity|].
      destruct (Py.len rows =? 0); [apply Qle_refl | unfold Qle; simpl; lia]. }
  destruct Hdens as (density & -> & Hd).
  cbn [Py.bind]. eexists. split; [reflexivity|].
  cbn [App.sug_nb_out App.sug_max_amt App.sug_min_amount App.sug_p95
       App.sug_avg_amt App.sug_window_steps App.sug_step_span App.sug_density].
  repeat split; trivial.
  - apply float_or_some_0.
  - unfold span. lia.
Qed.

Lemma int_of_float_floor x : (0 <= x)%Q -> Py.int_of_float x = Qfloor x.
Proof.
  destruct x as [n d]. unfold Qle, Py.int_of_float, Qfloor; simpl.
  intros Hn. apply Z.quot_div_nonneg; lia.
Qed.

Lemma max2_bounds a b : (a <= Py.max2 a b)%Q /\ (b <= Py.max2 a b)%Q.
Proof.
  unfold Py.max2, Py.gt.
  destruct (Qle_bool b a) eqn:E; cbn [negb].
  - apply Qle_bool_iff in E. split; [apply Qle_refl | exact E].
  - split; [|apply Qle_refl].
    destruct (Qlt_le_dec a b) as [H|H]; [apply Qlt_le_weak, H|].
    apply Qle_bool_iff in H. congruence.
Qed.

Lemma min2_cases a b :
  (Py.min2 a b = a /\ (a <= b)%Q) \/ (Py.min2 a b = b /\ (b < a)%Q).
Proof.
  unfold Py.min2, Py.gt.
  destruct (Qle_bool a b) eqn:E; cbn [negb].
  - left. apply Qle_bool_iff in E. auto.
  - right. split; [reflexivity|].
    destruct (Qlt_le_dec b a) as [H|H]; [exact H|].
    apply Qle_bool_iff in H. congruence.
Qed.

Lemma gt_spec a b : Py.gt a b = true <-> (b < a)%Q.
Proof.
  unfold Py.gt. rewrite negb_true_iff.
  split; intros H.
  - destruct (Qlt_le_dec b a) as [Hlt|Hle]; [exact Hlt|].
    apply Qle_bool_iff in Hle. congruence.
  - destruct (Qle_bool a b) eqn:E; [|reflexivity].
    apply Qle_bool_iff in E. exfalso. apply (Qlt_not_le _ _ H E).
Qed.

(** Rounding a positive base down to a multiple of 1000, with 50000 in
    place of 0. *)
Lemma rounded_threshold base :
  (0 < base)%Q ->
  let rounded := inject_Z (Py.int_of_float (base / (1000 # 1))%Q * 1000) in
  let t := if Qle_bool rounded 0 then 50000 # 1 else rounded in
  (exists k, 0 < k /\ t = inject_Z (k * 1000))
  /\ ((1000 # 1) <= base -> t <= base)%Q
  /\ (base < (1000 # 1) -> t = 50000 # 1)%Q.
Proof.
  intros Hbase rounded t. unfold t, rounded. clear t rounded.
  assert (Hdiv : (base == (base / (1000 # 1)) * (1000 # 1))%Q) by field.
  revert Hdiv. generalize (base / (1000 # 1))%Q. intros x Hdiv.
  assert (Hx : (0 <= x)%Q) by lra.
  rewrite (int_of_float_floor _ Hx).
  pose proof (Qfloor_le x) as Hlo.
  pose proof (Qlt_floor x) as Hhi.
  rewrite inject_Z_plus in Hhi. change (inject_Z 1) with 1%Q in Hhi.
  assert (Hk : 0 <= Qfloor x).
  { apply Qfloor_resp_le in Hx. exact Hx. }
  revert Hlo Hhi Hk. generalize (Qfloor x). intros k Hlo Hhi Hk.
  assert (Hmul : (inject_Z (k * 1000) == inject_Z k * (1000 # 1))%Q)
    by (rewrite inject_Z_mult; reflexivity).
  destruct (Z.eq_dec k 0) as [Hk0|Hk0].
  - subst k. change (inject_Z 0) with 0%Q in *.
    cbn [Z.mul inject_Z Qle_bool Qnum Qden Z.leb Z.compare].
    split; [exists 50; split; [lia | reflexivity]|].
    split; [|reflexivity].
    intros H. exfalso. lra.
  - assert (Hkpos : 0 < k) by lia.
    assert (Hneg : Qle_bool (inject_Z (k * 1000)) 0 = false).
    { destruct (Qle_bool (inject_Z (k * 1000)) 0) eqn:E; [|reflexivity].
      apply Qle_bool_iff in E. unfold Qle in E; simpl in E. lia. }
    rewrite Hneg.
    split; [exists k; split; [exact Hkpos | reflexivity]|].
    split.
    + intros _. rewrite Hmul. lra.
    + intros H. exfalso.
      assert (H1 : (inject_Z 1 <= inject_Z k)%Q) by (rewrite <- Zle_Qle; lia).
      change (inject_Z 1) with 1%Q in *. lra.
Qed.

Lemma proposed_threshold_facts p95 avg_amt max_amt :
  (exists k, 0 < k /\ App.proposed_threshold p95 avg_amt max_amt = inject_Z (k * 1000))
  /\ ((1000 # 1) <= max_amt ->
      App.proposed_threshold p95 avg_amt max_amt <= max_amt)%Q
  /\ (0 < max_amt -> max_amt < (1000 # 1) ->
      App.proposed_threshold p95 avg_amt max_amt = 50000 # 1)%Q.
Proof.
  unfold App.proposed_threshold.
  set (base0 := Py.max2 (Py.max2 p95 (avg_amt * (2 # 1))%Q) (50000 # 1)).
  assert (H0 : (50000 # 1 <= base0)%Q) by apply max2_bounds.
  set (base := if Py.gt max_amt 0 then Py.min2 base0 max_amt else base0).
  assert (Hbase : (0 < base)%Q).
  { unfold base. destruct (Py.gt max_amt 0) eqn:E; [|lra].
    apply gt_spec in E.
    destruct (min2_cases base0 max_amt) as [[-> _]|[-> _]]; lra. }
  destruct (rounded_threshold base Hbase) as (Hk & Hle & Hsmall).
  split; [exact Hk|]. split.
  - intros Hmax.
    assert (E : Py.gt max_amt 0 = true) by (apply gt_spec; lra).
    assert (Hb : ((1000 # 1) <= base /\ base <= max_amt)%Q).
    { unfold base. rewrite E.
      destruct (min2_cases base0 max_amt) as [[-> ?]|[-> ?]]; split; lra. }
    destruct Hb as [Hb1 Hb2]. specialize (Hle Hb1). lra.
  - intros Hpos Hmax. apply Hsmall.
    assert (E : Py.gt max_amt 0 = true) by (apply gt_spec; exact Hpos).
    unfold base. rewrite E.
    destruct (min2_cases base0 max_amt) as [[-> ?]|[-> ?]]; lra.
Qed.

(** X20. [suggest_detection_params] always returns, with a proposal that
    can be used as it is: the threshold is a positive multiple of 1000,
    the window is 5, 10 or 20 steps according to the number of outgoing
    transactions (30 or more, 10 to 29, fewer), and neither the span of
    steps nor the density is negative. *)
Theorem suggestion_well_formed db account :
  exists sug,
    App.suggest_detection_params db account = Py.Returned sug
    /\ (exists k, 0 < k /\ App.sug_min_amount sug = inject_Z (k * 1000))
    /\ App.sug_nb_out sug = Py.len (App.sent_by account db)
    /\ (30 <= App.sug_nb_out sug -> App.sug_window_steps sug = 5)
    /\ (10 <= App.sug_nb_out sug < 30 -> App.sug_window_steps sug = 10)
    /\ (App.sug_nb_out sug < 10 -> App.sug_window_steps sug = 20)
    /\ 0 <= App.sug_step_span sug
    /\ (0 <= App.sug_density sug)%Q.
Proof.
  destruct (suggest_detection_params_fields db account)
    as (sug & Hret & Hnb & _ & Hmin & Hwin & Hspan & Hdens).
  exists sug. split; [exact Hret|].
  split; [rewrite Hmin; apply proposed_threshold_facts|].
  split; [exact Hnb|].
  rewrite Hwin. unfold App.proposed_window.
  repeat split; trivial; intros H;
    destruct (Z.leb_spec 30 (App.sug_nb_out sug));
    destruct (Z.leb_spec 10 (App.sug_nb_out sug)); lia.
Qed.

Lemma fold_max_amount rest :
  forall acc,
    let m := fold_left (fun m x => if Qle_bool m (Server.amount x)
                                   then Server.amount x else m) rest acc in
    (acc <= m)%Q
    /\ (forall r, In r rest -> (Server.amount r <= m)%Q)
    /\ (m = acc \/ exists r, In r rest /\ m = Server.amount r).
Proof.
  induction rest as [|x rest IH]; intros acc; cbn [fold_left].
  - split; [apply Qle_refl|]. split; [intros r []|left; reflexivity].
  - destruct (IH (if Qle_bool acc (Server.amount x) then Server.amount x else acc))
      as (H1 & H2 & H3).
    cbv zeta.
    destruct (Qle_bool acc (Server.amount x)) eqn:E.
    + apply Qle_bool_iff in E.
      split; [eapply Qle_trans; eassumption|].
      split.
      * intros r [<-|Hr]; [exact H1 | apply H2, Hr].
      * right. destruct H3 as [->|(r & Hr & ->)]; [exists x | exists r]; simpl; auto.
    + assert (Hlt : (Server.amount x <= acc)%Q).
      { destruct (Qlt_le_dec acc (Server.amount x)) as [H|H]; [|exact H].
        apply Qlt_le_weak, Qle_bool_iff in H. congruence. }
      split; [exact H1|].
      split.
      * intros r [<-|Hr]; [eapply Qle_trans; eassumption | apply H2, Hr].
      * destruct H3 as [->|(r & Hr & ->)]; [left; reflexivity|].
        right. exists r; simpl; auto.
Qed.

(** [MAX(amount)] is an amount of the rows and bounds all of them. *)
Lemma sql_max_amount_spec rows :
  match Server.sql_max_amount rows with
  | None => rows = []
  | Some m =>
      (forall r, In r rows -> (Server.amount r <= m)%Q)
      /\ exists r, In r rows /\ m = Server.amount r
  end.
Proof.
  destruct rows as [|x rest]; [reflexivity|]. cbn [Server.sql_max_amount].
  destruct (fold_max_amount rest (Server.amount x)) as (H1 & H2 & H3).
  split.
  - intros r [<-|Hr]; [exact H1 | apply H2, Hr].
  - destruct H3 as [->|(r & Hr & ->)]; [exists x | exists r]; simpl; auto.
Qed.

(** The detector finds nothing exactly when there is no candidate. *)
Lemma detector_without_candidate db name min_amount window_steps max_rows d :
  Server.tool_detect_suspicious db name min_amount window_steps max_rows
  = Py.Returned d ->
  (forall r, In r db ->
     Server.candidate name (Py.if_not_none min_amount (200000 # 1)) r = false) ->
  Server.matches d = [].
Proof.
  intros Hdet Hnone.
  apply tool_detect_suspicious_returned in Hdet as [_ ->].
  rewrite (filter_none _ db Hnone). cbn.
  rewrite firstn_nil. reflexivity.
Qed.

Lemma detector_with_candidate db name min_amount window_steps max_rows r d :
  Server.tool_detect_suspicious db name min_amount window_steps max_rows
  = Py.Returned d ->
  In r db ->
  Server.candidate name (Py.if_not_none min_amount (200000 # 1)) r = true ->
  1 <= Py.if_not_none max_rows 10 ->
  Server.matches d <> [].
Proof.
  intros Hdet Hin Hc Hn.
  apply tool_detect_suspicious_returned in Hdet as [_ ->].
  set (cands := filter _ db).
  assert (Hr : In r cands) by (apply filter_In; auto).
  assert (Hlen : (1 <= List.length (Server.order_by Server.amount_desc cands))%nat).
  { rewrite (Permutation_length (order_by_perm _ _)).
    destruct cands; [destruct Hr | simpl; lia]. }
  intros Hnil. apply (f_equal (@List.length _)) in Hnil.
  rewrite length_map, length_firstn in Hnil. simpl in Hnil. lia.
Qed.

(** X21. When the largest outgoing amount of the account is at least 1000,
    the proposed threshold does not exceed it, and the largest outgoing
    transaction reaches the threshold. *)
Theorem suggested_threshold_below_max db account sug :
  App.suggest_detection_params db account = Py.Returned sug ->
  ((1000 # 1) <= App.sug_max_amt sug)%Q ->
  (App.sug_min_amount sug <= App.sug_max_amt sug)%Q
  /\ exists r,
       In r db /\ Server.name_orig r = account
       /\ (Server.amount r == App.sug_max_amt sug)%Q
       /\ (App.sug_min_amount sug <= Server.amount r)%Q.
Proof.
  intros Hret Hmax.
  destruct (suggest_detection_params_fields db account)
    as (sug' & Hret' & _ & Hmaxeq & Hmin & _).
  rewrite Hret in Hret'. injection Hret' as <-.
  assert (Hle : (App.sug_min_amount sug <= App.sug_max_amt sug)%Q)
    by (rewrite Hmin; apply proposed_threshold_facts, Hmax).
  split; [exact Hle|].
  pose proof (sql_max_amount_spec (App.sent_by account db)) as Hspec.
  destruct (Server.sql_max_amount (App.sent_by account db)) as [m|].
  - destruct Hspec as (_ & r & Hr & ->).
    cbn [Server.coalesce] in Hmaxeq.
    apply filter_In in Hr as [Hdb Hname]. apply String.eqb_eq in Hname.
    exists r. repeat split; trivial.
    + symmetry. exact Hmaxeq.
    + rewrite <- Hmaxeq. exact Hle.
  - cbn [Server.coalesce] in Hmaxeq. exfalso. lra.
Qed.

Lemma suggested_threshold_below_max_sample :
  (App.sug_min_amount (App.suggestion_for Server.sample_db "C100")
   <= App.sug_max_amt (App.suggestion_for Server.sample_db "C100"))%Q
  /\ exists r,
       In r Server.sample_db /\ Server.name_orig r = "C100"%string
       /\ (Server.amount r
           == App.sug_max_amt (App.suggestion_for Server.sample_db "C100"))%Q
       /\ (App.sug_min_amount (App.suggestion_for Server.sample_db "C100")
           <= Server.amount r)%Q.
Proof.
  apply (suggested_threshold_below_max Server.sample_db "C100").
  - vm_compute. reflexivity.
  - vm_compute. discriminate.
Defined.

(** X22. When the largest outgoing amount of the account is positive but
    below 1000, the proposal falls back to 50000, above every outgoing
    amount of the account: a detection run with it finds no match. *)
Theorem suggested_threshold_above_small_max db account sug window_steps max_rows d :
  App.suggest_detection_params db account = Py.Returned sug ->
  (0 < App.sug_max_amt sug)%Q ->
  (App.sug_max_amt sug < (1000 # 1))%Q ->
  Server.tool_detect_suspicious db account (Some (App.sug_min_amount sug))
    window_steps max_rows = Py.Returned d ->
  App.sug_min_amount sug = 50000 # 1
  /\ (App.sug_max_amt sug < App.sug_min_amount sug)%Q
  /\ Server.matches d = [].
Proof.
  intros Hret Hpos Hsmall Hdet.
  destruct (suggest_detection_params_fields db account)
    as (sug' & Hret' & _ & Hmaxeq & Hmin & _).
  rewrite Hret in Hret'. injection Hret' as <-.
  assert (Heq : App.sug_min_amount sug = 50000 # 1)
    by (rewrite Hmin; apply proposed_threshold_facts; assumption).
  split; [exact Heq|]. split; [rewrite Heq; lra|].
  apply (detector_without_candidate _ _ _ _ _ _ Hdet).
  intros r Hr. cbn [Py.if_not_none]. rewrite Heq.
  unfold Server.candidate.
  destruct (String.eqb_spec (Server.name_orig r) account) as [Hname|]; [|reflexivity].
  destruct (Qle_bool (50000 # 1) (Server.amount r)) eqn:E; [|reflexivity].
  exfalso. apply Qle_bool_iff in E.
  pose proof (sql_max_amount_spec (App.sent_by account db)) as Hspec.
  assert (Hin : In r (App.sent_by account db)).
  { apply filter_In. split; [exact Hr|]. apply String.eqb_eq, Hname. }
  destruct (Server.sql_max_amount (App.sent_by account db)) as [m|].
  - destruct Hspec as (Hall & _). specialize (Hall r Hin).
    cbn [Server.coalesce] in Hmaxeq. lra.
  - rewrite Hspec in Hin. destruct Hin.
Qed.

Lemma suggested_threshold_above_small_max_sample :
  App.sug_min_amount (App.suggestion_for Server.small_db "C500") = 50000 # 1
  /\ (App.sug_max_amt (App.suggestion_for Server.small_db "C500")
      < App.sug_min_amount (App.suggestion_for Server.small_db "C500"))%Q
  /\ Server.matches
       (Server.mkDetection "C500" (50000 # 1) 10 10 []
          "Règles simples de démo (pas de ML).") = [].
Proof.
  apply (suggested_threshold_above_small_max Server.small_db "C500"
           (App.suggestion_for Server.small_db "C500") None None);
    vm_compute; reflexivity.
Defined.

(** X23. When the largest outgoing transaction of the account is a
    TRANSFER or a CASH_OUT of at least 1000, a detection run with the
    proposed threshold and a [max_rows] from 1 to the largest [bigint]
    finds a match. *)
Theorem suggested_threshold_finds_a_match db account sug r window_steps max_rows :
  App.suggest_detection_params db account = Py.Returned sug ->
  In r db ->
  Server.name_orig r = account ->
  Server.risky r = true ->
  (forall r', In r' db -> Server.name_orig r' = account ->
     (Server.amount r' <= Server.amount r)%Q) ->
  ((1000 # 1) <= Server.amount r)%Q ->
  1 <= Py.if_not_none max_rows 10 <= Server.bigint_max ->
  exists d,
    Server.tool_detect_suspicious db account (Some (App.sug_min_amount sug))
      window_steps max_rows = Py.Returned d
    /\ Server.matches d <> [].
Proof.
  intros Hret Hr Hname Hrisky Hlargest Hbig Hn.
  destruct (suggest_detection_params_fields db account)
    as (sug' & Hret' & _ & Hmaxeq & Hmin & _).
  rewrite Hret in Hret'. injection Hret' as <-.
  assert (Hin : In r (App.sent_by account db)).
  { apply filter_In. split; [exact Hr|]. apply String.eqb_eq, Hname. }
  assert (Hmax : (Server.amount r <= App.sug_max_amt sug)%Q).
  { pose proof (sql_max_amount_spec (App.sent_by account db)) as Hspec.
    destruct (Server.sql_max_amount (App.sent_by account db)) as [m|].
    - destruct Hspec as (Hall & _). specialize (Hall r Hin).
      cbn [Server.coalesce] in Hmaxeq. lra.
    - rewrite Hspec in Hin. destruct Hin. }
  assert (Hmax' : (App.sug_max_amt sug <= Server.amount r)%Q).
  { pose proof (sql_max_amount_spec (App.sent_by account db)) as Hspec.
    destruct (Server.sql_max_amount (App.sent_by account db)) as [m|].
    - destruct Hspec as (_ & r' & Hr' & ->).
      cbn [Server.coalesce] in Hmaxeq. rewrite Hmaxeq.
      apply filter_In in Hr' as [Hdb' Hname']. apply String.eqb_eq in Hname'.
      apply Hlargest; assumption.
    - rewrite Hspec in Hin. destruct Hin. }
  assert (Hle : (App.sug_min_amount sug <= App.sug_max_amt sug)%Q)
    by (rewrite Hmin; apply proposed_threshold_facts; lra).
  eexists. split; [apply tool_detect_suspicious_fields; lia|].
  eapply (detector_with_candidate db account _ window_steps max_rows r);
    [apply tool_detect_suspicious_fields; lia | exact Hr | | lia].
  cbn [Py.if_not_none]. unfold Server.candidate.
  fold (Server.risky r). rewrite Hrisky.
  apply String.eqb_eq in Hname. rewrite Hname.
  assert (E : Qle_bool (App.sug_min_amount sug) (Server.amount r) = true)
    by (apply Qle_bool_iff; lra).
  rewrite E. reflexivity.
Qed.

Lemma suggested_threshold_finds_a_match_sample :
  exists d,
    Server.tool_detect_suspicious Server.transfers_db "C100"
      (Some (App.sug_min_amount (App.suggestion_for Server.transfers_db "C100")))
      None None = Py.Returned d
    /\ Server.matches d <> [].
Proof.
  apply (suggested_threshold_finds_a_match Server.transfers_db "C100"
           (App.suggestion_for Server.transfers_db "C100")
           (Server.mkTransaction 2 3 "CASH_OUT" (500000 # 1) "C100" (500000 # 1) 0
              "C300" 0 0 true false) None None).
  - vm_compute. reflexivity.
  - simpl. auto.
  - reflexivity.
  - reflexivity.
  - intros r' Hr' Hname. simpl in Hr'.
    repeat (destruct Hr' as [<-|Hr']; [try discriminate Hname; vm_compute; discriminate|]).
    destruct Hr'.
  - vm_compute. discriminate.
  - vm_compute. split; discriminate.
Defined.

(** *** The diagnostic shown when the detector finds nothing *)

Lemma risky_rows_are_candidates_at name threshold r :
  Server.candidate name threshold r
  = (String.eqb (Server.name_orig r) name && Server.risky r
     && Qle_bool threshold (Server.amount r))%bool.
Proof.
  unfold Server.candidate, Server.risky.
  destruct (String.eqb (Server.name_orig r) name),
    (Qle_bool threshold (Server.amount r)),
    (String.eqb (Server.type r) "TRANSFER" || String.eqb (Server.type r) "CASH_OUT")%bool;
    reflexivity.
Qed.

(** X24. When [risky_out_stats] counts no outgoing TRANSFER or CASH_OUT for
    the account, the detector finds no match whatever the threshold, the
    window and the number of rows asked for. *)
Theorem no_risky_operation_no_match db name min_amount window_steps max_rows d :
  App.nb_risky_out (App.risky_out_stats db name) = 0 ->
  Server.tool_detect_suspicious db name min_amount window_steps max_rows
  = Py.Returned d ->
  Server.matches d = [] /\ App.why_no_match db name
                             (Py.if_not_none min_amount (200000 # 1))
                           = App.NoRiskyOperation.
Proof.
  intros Hnb Hdet. split.
  - apply (detector_without_candidate _ _ _ _ _ _ Hdet).
    intros r Hr. rewrite risky_rows_are_candidates_at.
    unfold App.risky_out_stats in Hnb. cbn [App.nb_risky_out] in Hnb.
    rewrite int_or_some_0 in Hnb.
    destruct (String.eqb (Server.name_orig r) name && Server.risky r)%bool eqn:E;
      [|reflexivity].
    exfalso.
    assert (Hin : In r (filter (fun r => (String.eqb (Server.name_orig r) name
                                          && Server.risky r)%bool) db))
      by (apply filter_In; auto).
    destruct (filter _ db); [destruct Hin|].
    unfold Py.len in Hnb. simpl in Hnb. lia.
  - unfold App.why_no_match. rewrite Hnb. reflexivity.
Qed.

Lemma no_risky_operation_no_match_sample :
  Server.matches
    (Server.mkDetection "C500" (100 # 1) 10 10 []
       "Règles simples de démo (pas de ML).") = []
  /\ App.why_no_match Server.small_db "C500" (100 # 1) = App.NoRiskyOperation.
Proof.
  apply (no_risky_operation_no_match Server.small_db "C500" (Some (100 # 1))
           None None); reflexivity.
Defined.

(** The largest amount reported by [risky_out_stats] bounds the risky
    outgoing amounts of the account and is one of them. *)
Lemma max_risky_amount_spec db name :
  let rows := filter (fun r => (String.eqb (Server.name_orig r) name
                                && Server.risky r)%bool) db in
  let m := App.max_risky_amount (App.risky_out_stats db name) in
  (forall r, In r rows -> (Server.amount r <= m)%Q)
  /\ (rows <> [] -> exists r, In r rows /\ (Server.amount r == m)%Q).
Proof.
  intros rows m. unfold m, App.risky_out_stats. cbn [App.max_risky_amount].
  fold rows.
  pose proof (sql_max_amount_spec rows) as Hspec.
  pose proof (float_or_some_0 (Server.coalesce (Server.sql_max_amount rows) 0)) as Heq.
  destruct (Server.sql_max_amount rows) as [x|].
  - destruct Hspec as (Hall & r & Hr & ->). cbn [Server.coalesce] in *.
    split.
    + intros r' Hr'. rewrite Heq. apply Hall, Hr'.
    + intros _. exists r. split; [exact Hr|]. symmetry. exact Heq.
  - rewrite Hspec. split; [intros r []|]. intros H; contradiction.
Qed.

Lemma detector_empty_iff db name threshold window_steps max_rows d :
  1 <= Py.if_not_none max_rows 10 ->
  Server.tool_detect_suspicious db name (Some threshold) window_steps max_rows
  = Py.Returned d ->
  (Server.matches d = []
   <-> App.nb_risky_out (App.risky_out_stats db name) = 0
       \/ (App.max_risky_amount (App.risky_out_stats db name) < threshold)%Q).
Proof.
  intros Hn Hdet.
  destruct (max_risky_amount_spec db name) as [Hall Hex].
  set (rows := filter (fun r => (String.eqb (Server.name_orig r) name
                                 && Server.risky r)%bool) db) in *.
  assert (Hnb : App.nb_risky_out (App.risky_out_stats db name) = Py.len rows).
  { unfold App.risky_out_stats. cbn [App.nb_risky_out]. apply int_or_some_0. }
  split.
  - intros Hempty.
    destruct rows as [|x rest] eqn:Erows; [left; rewrite Hnb; reflexivity|].
    right. rewrite <- Erows in *.
    destruct (Hex ltac:(rewrite Erows; discriminate)) as (r & Hr & Hmax).
    destruct (Qlt_le_dec (App.max_risky_amount (App.risky_out_stats db name)) threshold)
      as [Hlt|Hle]; [exact Hlt|].
    exfalso.
    apply filter_In in Hr as [Hdb Hrisky].
    apply (detector_with_candidate db name (Some threshold) window_steps
             max_rows r d Hdet Hdb); [|exact Hn|exact Hempty].
    cbn [Py.if_not_none]. rewrite risky_rows_are_candidates_at, Hrisky.
    apply Qle_bool_iff. rewrite Hmax. exact Hle.
  - intros Hor.
    apply (detector_without_candidate _ _ _ _ _ _ Hdet).
    intros r Hr. cbn [Py.if_not_none]. rewrite risky_rows_are_candidates_at.
    destruct (String.eqb (Server.name_orig r) name && Server.risky r)%bool eqn:E;
      [|reflexivity].
    assert (Hin : In r rows) by (apply filter_In; auto).
    destruct Hor as [Hzero|Hlt].
    + exfalso. rewrite Hnb in Hzero. destruct rows; [destruct Hin|].
      unfold Py.len in Hzero. simpl in Hzero. lia.
    + specialize (Hall r Hin).
      destruct (Qle_bool threshold (Server.amount r)) eqn:Eq; [|reflexivity].
      apply Qle_bool_iff in Eq. exfalso. lra.
Qed.

(** X25. With at least one row allowed, the detector finds no match
    exactly when the account has no outgoing TRANSFER or CASH_OUT, or when
    the threshold is above the largest amount of these operations. *)
Theorem no_match_iff_threshold_above_max db name threshold window_steps max_rows d :
  1 <= Py.if_not_none max_rows 10 ->
  Server.tool_detect_suspicious db name (Some threshold) window_steps max_rows
  = Py.Returned d ->
  (Server.matches d = []
   <-> App.nb_risky_out (App.risky_out_stats db name) = 0
       \/ (App.max_risky_amount (App.risky_out_stats db name) < threshold)%Q).
Proof.
  apply detector_empty_iff.
Qed.

Lemma no_match_iff_threshold_above_max_sample :
  Server.matches (Server.sample_detection (400000 # 1)) = []
  <-> App.nb_risky_out (App.risky_out_stats Server.sample_db "C100") = 0
      \/ (App.max_risky_amount (App.risky_out_stats Server.sample_db "C100")
          < 400000 # 1)%Q.
Proof.
  apply (no_match_iff_threshold_above_max Server.sample_db "C100" (400000 # 1)
           None None).
  - vm_compute. discriminate.
  - reflexivity.
Defined.

(** X26. The third explanation of the detection page (a threshold that
    looks compatible, so that the pattern or the window is blamed) is
    given for an empty result only when no risky outgoing operation of the
    account has a positive amount. *)
Theorem pattern_blamed_only_without_positive_amount db name threshold window_steps d :
  Server.tool_detect_suspicious db name (Some threshold) window_steps None
  = Py.Returned d ->
  Server.matches d = [] ->
  App.why_no_match db name threshold = App.PatternOrWindow ->
  forall r, In r db -> Server.name_orig r = name -> Server.risky r = true ->
    (Server.amount r <= 0)%Q.
Proof.
  intros Hdet Hempty Hwhy r Hr Hname Hrisky.
  destruct (max_risky_amount_spec db name) as [Hall _].
  assert (Hin : In r (filter (fun r => (String.eqb (Server.name_orig r) name
                                        && Server.risky r)%bool) db)).
  { apply filter_In. split; [exact Hr|].
    apply String.eqb_eq in Hname. rewrite Hname, Hrisky. reflexivity. }
  specialize (Hall r Hin).
  apply (detector_empty_iff db name threshold window_steps None d
           ltac:(cbn; lia) Hdet) in Hempty.
  unfold App.why_no_match in Hwhy.
  destruct (App.nb_risky_out (App.risky_out_stats db name) =? 0) eqn:Enb;
    [discriminate|].
  apply Z.eqb_neq in Enb.
  destruct Hempty as [Hzero|Hlt]; [contradiction|].
  apply gt_spec in Hlt. rewrite Hlt in Hwhy. cbn [andb] in Hwhy.
  destruct (Py.gt (App.max_risky_amount (App.risky_out_stats db name)) 0) eqn:Eg;
    [discriminate|].
  destruct (Qlt_le_dec 0 (App.max_risky_amount (App.risky_out_stats db name)))
    as [Hpos|Hle].
  - apply gt_spec in Hpos. congruence.
  - eapply Qle_trans; eassumption.
Qed.

Lemma pattern_blamed_only_without_positive_amount_sample :
  (Server.amount
     (Server.mkTransaction 1 1 "TRANSFER" 0 "C700" 0 0 "C800" 0 0 false false)
   <= 0)%Q.
Proof.
  apply (pattern_blamed_only_without_positive_amount Server.zero_db "C700"
           (100 # 1) None
           (Server.mkDetection "C700" (100 # 1) 10 10 []
              "Règles simples de démo (pas de ML).")); try reflexivity.
  simpl. left. reflexivity.
Defined.

(** *** The overview *)

Lemma fold_min_step rest :
  forall acc,
    let m := fold_left (fun m x => Z.min m (Server.step x)) rest acc in
    m <= acc /\ forall r, In r rest -> m <= Server.step r.
Proof.
  induction rest as [|x rest IH]; intros acc; cbn [fold_left].
  - split; [lia | intros r []].
  - destruct (IH (Z.min acc (Server.step x))) as [H1 H2]. cbv zeta.
    split; [lia|]. intros r [<-|Hr]; [lia | apply H2, Hr].
Qed.

Lemma fold_max_step rest :
  forall acc,
    let m := fold_left (fun m x => Z.max m (Server.step x)) rest acc in
    acc <= m /\ forall r, In r rest -> Server.step r <= m.
Proof.
  induction rest as [|x rest IH]; intros acc; cbn [fold_left].
  - split; [lia | intros r []].
  - destruct (IH (Z.max acc (Server.step x))) as [H1 H2]. cbv zeta.
    split; [lia|]. intros r [<-|Hr]; [lia | apply H2, Hr].
Qed.

(** X27. [global_overview] never raises, also on an empty table, where the
    fraud rate is 0 and the bounds of the steps are absent.  The number of
    frauds does not exceed the number of rows, the rate is between 0 and 1,
    every row has its step between the two bounds, and at most ten types
    are listed. *)
Theorem overview_well_formed db :
  exists ov,
    App.global_overview db = Py.Returned ov
    /\ App.ov_n ov = Py.len db
    /\ 0 <= App.ov_n_fraud ov <= App.ov_n ov
    /\ (0 <= App.ov_fraud_rate ov <= 1)%Q
    /\ (db = [] ->
        App.ov_fraud_rate ov = 0%Q
        /\ App.ov_step_min ov = None /\ App.ov_step_max ov = None)
    /\ (forall r, In r db ->
        exists lo hi,
          App.ov_step_min ov = Some lo /\ App.ov_step_max ov = Some hi
          /\ lo <= Server.step r <= hi)
    /\ (List.length (App.ov_top_types ov) <= 10)%nat.
Proof.
  unfold App.global_overview, Py.truediv_int.
  rewrite limit_in_range by (unfold Server.bigint_max; lia). cbn [Py.bind].
  pose proof (filter_length_le Server.is_fraud db) as Hfr.
  assert (Hrate : exists rate,
            (if Py.len db =? 0 then Py.Returned 0%Q
             else if Py.len db =? 0 then Py.Raised Py.ZeroDivisionError
                  else Py.Returned (inject_Z (Py.len (filter Server.is_fraud db))
                                    / inject_Z (Py.len db))%Q)
            = Py.Returned rate
            /\ (0 <= rate <= 1)%Q /\ (db = [] -> rate = 0%Q)).
  { destruct (Z.eqb_spec (Py.len db) 0) as [E|E].
    - eexists; split; [reflexivity|]. split; [lra | reflexivity].
    - eexists; split; [reflexivity|]. split.
      + assert (Hpos : (0 < inject_Z (Py.len db))%Q)
          by (unfold Qlt, Py.len in *; simpl; lia).
        split.
        * apply Qle_shift_div_l; [exact Hpos|]. rewrite Qmult_0_l.
          unfold Qle, Py.len; simpl; lia.
        * apply Qle_shift_div_r; [exact Hpos|]. rewrite Qmult_1_l.
          rewrite <- Zle_Qle. unfold Py.len. lia.
      + intros ->. contradiction E. reflexivity. }
  destruct Hrate as (rate & -> & Hr & Hempty).
  cbn [Py.bind]. eexists. split; [reflexivity|].
  cbn [App.ov_n App.ov_n_fraud App.ov_fraud_rate App.ov_step_min
       App.ov_step_max App.ov_top_types].
  split; [reflexivity|].
  split; [unfold Py.len; lia|].
  split; [exact Hr|].
  split; [intros H; split; [apply Hempty, H | subst db; split; reflexivity]|].
  split; [|apply firstn_le_length].
  intros r Hin. destruct db as [|x rest]; [destruct Hin|].
  cbn [Server.sql_min_step Server.sql_max_step].
  destruct (fold_min_step rest (Server.step x)) as [Hlo1 Hlo2].
  destruct (fold_max_step rest (Server.step x)) as [Hhi1 Hhi2].
  eexists. eexists. split; [reflexivity|]. split; [reflexivity|].
  destruct Hin as [<-|Hin]; [lia|].
  specialize (Hlo2 r Hin). specialize (Hhi2 r Hin). lia.
Qed.

(** *** The pages: server results fed to the scoring engine *)

Lemma existsb_filter_nonempty {A : Type} (p : A -> bool) (l : list A) :
  filter p l <> [] <-> exists x, In x l /\ p x = true.
Proof.
  split.
  - destruct (filter p l) as [|x r] eqn:E; [intros H; contradiction|].
    intros _. exists x. apply filter_In. rewrite E. left; reflexivity.
  - intros (x & Hx & Hp) E.
    assert (Hin : In x (filter p l)) by (apply filter_In; auto).
    rewrite E in Hin. destruct Hin.
Qed.

Lemma len_positive_iff {A : Type} (l : list A) : 0 < Py.len l <-> l <> [].
Proof.
  unfold Py.len. destruct l; simpl; split; intros H; try lia; try discriminate.
  contradiction H; reflexivity.
Qed.

(** X28. The detection page always obtains insights.  In their breakdown,
    the rule on one match is triggered exactly when the account has a
    candidate at the threshold typed on the page, and the rule on labelled
    fraud exactly when the account has an outgoing transaction labelled as
    fraud with a step from 1 to 200. *)
Theorem detection_page_rules db name min_amount window_steps :
  exists ins one fraud,
    App.detection_page_insights db name min_amount window_steps = Py.Returned ins
    /\ App.entry_of (App.breakdown ins) "Au moins 1 match détecté" = Some one
    /\ App.entry_of (App.breakdown ins) "Fraude labellisée (dataset)" = Some fraud
    /\ (App.triggered one = true
        <-> exists r, In r db /\ Server.candidate name min_amount r = true)
    /\ (App.triggered fraud = true
        <-> exists r, In r db /\ Server.outgoing_fraud name 1 200 r = true).
Proof.
  unfold App.detection_page_insights.
  rewrite (tool_detect_suspicious_fields db name (Some min_amount)
             (Some window_steps) None)
    by (cbn; unfold Server.bigint_max; lia).
  destruct (tool_get_account_kpi_fields db name (Some 1) (Some 200))
    as (k & -> & _ & _ & _ & _ & _ & Hfo & _).
  cbn [Py.bind Py.if_not_none] in *.
  set (d := Server.mkDetection _ _ _ _ _ _).
  destruct (breakdown_shape (Some (App.kpi_json k)) (Some (App.detection_json d)) None)
    as (w1 & w2 & w3 & w4 & w5 & w6 & w7 & Hshape).
  eexists. eexists. eexists.
  split; [reflexivity|].
  rewrite breakdown_build_insights, Hshape.
  split; [reflexivity|]. split; [reflexivity|].
  cbn [App.triggered]. split.
  - unfold App.trig_one_match, App.matches_of, App.detection_json.
    cbn [App.matches Server.matches d].
    set (cands := filter (Server.candidate name min_amount) db).
    set (ms := map Server.match_of_row _).
    assert (Hms : Py.list_or (Some ms) [] = ms) by (destruct ms; reflexivity).
    rewrite Hms.
    assert (Hlen : Py.len ms = Z.min 10 (Py.len cands)).
    { unfold ms, Py.len.
      rewrite length_map, length_firstn, (Permutation_length (order_by_perm _ _)).
      lia. }
    rewrite Z.leb_le, Hlen, <- existsb_filter_nonempty, <- len_positive_iff.
    fold cands. lia.
  - unfold App.trig_labelled_fraud, App.out_of, App.kpi_json.
    cbn [App.kpi_out App.fraud_out]. rewrite int_or_some_0, Hfo.
    rewrite Z.ltb_lt, <- existsb_filter_nonempty.
    unfold Server.sql_count.
    change (Z.of_nat (List.length ?l)) with (Py.len l).
    apply len_positive_iff.
Qed.

(** What the lookup page does once the row of the id is known. *)
Lemma lookup_page_of_row db tx_id row :
  find (fun r => Server.id r =? tx_id) db = Some row ->
  Server.name_orig row <> EmptyString ->
  exists k d,
    Server.tool_get_account_kpi db (Server.name_orig row) (Some 1) (Some 200)
    = Py.Returned k
    /\ Server.tool_detect_suspicious db (Server.name_orig row)
         (Some (200000 # 1)) (Some 10) (Some 10) = Py.Returned d
    /\ App.lookup_page_insights db tx_id
       = Py.Returned
           (Some (App.build_insights (Some (App.kpi_json k))
                    (Some (App.detection_json d)) (Some (App.tx_json row)))).
Proof.
  intros Hfind Hname.
  destruct (tool_get_account_kpi_fields db (Server.name_orig row) (Some 1) (Some 200))
    as (k & Hk & _).
  pose proof (tool_detect_suspicious_fields db (Server.name_orig row)
                (Some (200000 # 1)) (Some 10) (Some 10)
                ltac:(cbn; unfold Server.bigint_max; lia)) as Hd.
  exists k. eexists. split; [exact Hk|]. split; [exact Hd|].
  unfold App.lookup_page_insights.
  destruct (transaction_uri_read db tx_id) as [_ ->].
  rewrite Hfind. cbn [Py.bind].
  destruct (Server.name_orig row) eqn:E; [contradiction Hname; reflexivity|].
  rewrite <- E in *. rewrite Hk, Hd. reflexivity.
Qed.

(** X29. Looking up a transaction that is labelled as fraud, has an origin
    account and a step from 1 to 200 always gives insights in which the
    rule on labelled fraud and the rule on the transaction are triggered:
    the score is at least 40. *)
Theorem lookup_of_fraud_scores_at_least_40 db tx_id row :
  find (fun r => Server.id r =? tx_id) db = Some row ->
  Server.name_orig row <> EmptyString ->
  Server.is_fraud row = true ->
  1 <= Server.step row <= 200 ->
  exists ins fraud signal,
    App.lookup_page_insights db tx_id = Py.Returned (Some ins)
    /\ App.entry_of (App.breakdown ins) "Fraude labellisée (dataset)" = Some fraud
    /\ App.entry_of (App.breakdown ins) "Signal sur la transaction consultée"
       = Some signal
    /\ App.triggered fraud = true
    /\ App.triggered signal = true
    /\ 15 <= App.points signal
    /\ 40 <= App.score ins.
Proof.
  intros Hfind Hname Hfraud Hstep.
  destruct (lookup_page_of_row db tx_id row Hfind Hname) as (k & d & Hk & Hd & Hpage).
  destruct (tool_get_account_kpi_fields db (Server.name_orig row) (Some 1) (Some 200))
    as (k' & Hk' & _ & _ & _ & _ & _ & Hfo & _).
  rewrite Hk in Hk'. injection Hk' as <-. cbn [Py.if_not_none] in Hfo.
  set (kpi := Some (App.kpi_json k)). set (det := Some (App.detection_json d)).
  set (tx := Some (App.tx_json row)).
  assert (H5 : App.trig_labelled_fraud kpi = true).
  { unfold App.trig_labelled_fraud, kpi, App.out_of, App.kpi_json.
    cbn [App.kpi_out App.fraud_out]. rewrite int_or_some_0, Hfo.
    apply Z.ltb_lt. unfold Server.sql_count.
    change (Z.of_nat (List.length ?l)) with (Py.len l).
    apply len_positive_iff, existsb_filter_nonempty.
    exists row. split; [apply (find_some _ _ Hfind)|].
    unfold Server.outgoing_fraud, Server.between.
    rewrite String.eqb_refl, Hfraud.
    destruct Hstep as [H1 H2]. apply Z.leb_le in H1, H2. rewrite H1, H2. reflexivity. }
  assert (Hpts : 15 <= App.tx_points tx (App.min_amount_of det) <= 35).
  { split; [|apply tx_points_range].
    unfold tx. rewrite tx_points_subtotal. unfold App.tx_subtotal.
    assert (Hlab : App.tx_labelled_fraud (App.tx_json row) = true) by exact Hfraud.
    rewrite Hlab.
    destruct (App.tx_drained (App.tx_json row)),
      (App.tx_large (App.tx_json row) (App.min_amount_of det)); lia. }
  assert (H7 : (App.tx_truthy tx && (0 <? App.tx_points tx (App.min_amount_of det)))%bool
               = true).
  { cbn [App.tx_truthy tx andb]. apply Z.ltb_lt. lia. }
  destruct (breakdown_shape kpi det tx) as (w1 & w2 & w3 & w4 & w5 & w6 & w7 & Hshape).
  eexists. eexists. eexists.
  split; [exact Hpage|].
  fold kpi det tx. rewrite breakdown_build_insights, Hshape.
  split; [reflexivity|]. split; [reflexivity|].
  cbn [App.triggered App.points].
  split; [exact H5|]. split; [exact H7|].
  rewrite H7. unfold App.award. split; [lia|].
  rewrite score_build_insights, raw_score, H5. unfold App.award.
  destruct (App.trig_concentration kpi det), (App.trig_high_average kpi det),
    (App.trig_one_match det), (App.trig_many_matches det), (App.trig_imbalance kpi);
    lia.
Qed.

Lemma lookup_of_fraud_scores_at_least_40_sample :
  exists ins fraud signal,
    App.lookup_page_insights Server.sample_db 2 = Py.Returned (Some ins)
    /\ App.entry_of (App.breakdown ins) "Fraude labellisée (dataset)" = Some fraud
    /\ App.entry_of (App.breakdown ins) "Signal sur la transaction consultée"
       = Some signal
    /\ App.triggered fraud = true
    /\ App.triggered signal = true
    /\ 15 <= App.points signal
    /\ 40 <= App.score ins.
Proof.
  apply (lookup_of_fraud_scores_at_least_40 Server.sample_db 2
           (Server.mkTransaction 2 3 "CASH_OUT" (500000 # 1) "C100" (500000 # 1) 0
              "C300" 0 0 true false)).
  - reflexivity.
  - discriminate.
  - reflexivity.
  - simpl. lia.
Defined.

(** X30. Looking up an id that no row carries gives neither insights nor
    an error: the not-found result names no origin account, and the page
    stops there. *)
Theorem lookup_of_unknown_id_shows_nothing db tx_id :
  Server.transaction_known db tx_id = false ->
  Server.resource_read db (App.transaction_uri tx_id)
  = Py.Returned (Server.TransactionNotFound tx_id)
  /\ App.lookup_page_insights db tx_id = Py.Returned None.
Proof.
  intros Hunk. apply find_none_of_existsb in Hunk.
  unfold App.lookup_page_insights.
  destruct (transaction_uri_read db tx_id) as [_ ->].
  rewrite Hunk. split; reflexivity.
Qed.

Lemma lookup_of_unknown_id_shows_nothing_sample :
  Server.resource_read Server.sample_db (App.transaction_uri 5)
  = Py.Returned (Server.TransactionNotFound 5)
  /\ App.lookup_page_insights Server.sample_db 5 = Py.Returned None.
Proof.
  apply lookup_of_unknown_id_shows_nothing. reflexivity.
Defined.
